(** * Salesforce file tools for watsonx Orchestrate: a shallow embedding

    The repository holds three request handlers, each called
    [salesforce_download_file]:
    - [tools/salesforce_simple.py]: resolve an identifier, download the file;
    - [tools/salesforce_replace.py]: the same, then rewrite the slide
      template ([modify_pptx_template]);
    - [tools/salesforce_upload.py]: the same, then upload the rewritten file
      ([upload_file_to_salesforce]).

    Conventions of the embedding.
    - A Python [str] is a Rocq [string]; each character is read as the code
      point of the same number, so the texts covered are those of code points
      below 256.  On that range [str.isspace] and the regular expression
      class [\d] are the tables written out below.
    - [bytes] is [list byte].
    - A Python [dict] is a [gmap] with string keys.
    - The network, the credential store, the clock and the slide-document
      library are collaborators outside the repository: they are the fields of
      an environment record, and every HTTP call made is appended to a trace.
    - A raised Python exception is a value of type [exn]; code that may raise
      runs in the monad [M].  [exn] holds what [except Exception] catches.
      A collaborator that leaves through [SystemExit] or
      [KeyboardInterrupt], which are no [Exception], leaves the handler too;
      such a run has no value here and no statement below is about it. *)

From Stdlib Require Import ZArith NArith Ascii String List Lia Bool DecimalString.
From Stdlib Require Import Init.Byte.
From stdpp Require Import base option gmap strings list fin_maps.

Local Open Scope string_scope.
Local Open Scope list_scope.
Local Open Scope Z_scope.

(** ** Python [str] operations *)

Module Py.

(** [s.startswith(pre)] *)
Fixpoint startswith (s pre : string) {struct pre} : bool :=
  match pre with
  | EmptyString => true
  | String a pre' =>
      match s with
      | EmptyString => false
      | String b s' => Ascii.eqb a b && startswith s' pre'
      end
  end.

(** [sub in s] *)
Fixpoint str_in (sub s : string) : bool :=
  startswith s sub ||
  match s with
  | EmptyString => false
  | String _ s' => str_in sub s'
  end.

(** [s.replace(old, new)] for a non-empty [old]: occurrences are found from
    the left and do not overlap.  [skip] counts the characters of a matched
    occurrence that are still to be dropped. *)
Fixpoint replace_from (old new : string) (skip : nat) (s : string) : string :=
  match s with
  | EmptyString => EmptyString
  | String c s' =>
      match skip with
      | S k => replace_from old new k s'
      | O =>
          if startswith s old
          then new +:+ replace_from old new (Nat.pred (String.length old)) s'
          else String c (replace_from old new O s')
      end
  end.

(** For an empty [old], Python puts [new] before every character and at the
    end. *)
Fixpoint interleave (new s : string) : string :=
  match s with
  | EmptyString => EmptyString
  | String c s' => String c (new +:+ interleave new s')
  end.

Definition replace (s old new : string) : string :=
  match old with
  | EmptyString => new +:+ interleave new s
  | String _ _ => replace_from old new O s
  end.

(** [str.isspace] on one character, for code points below 256. *)
Definition isspace (c : ascii) : bool :=
  let n := N_of_ascii c in
  ((9 <=? n) && (n <=? 13) || (28 <=? n) && (n <=? 32) ||
   (n =? 133) || (n =? 160))%N.

Fixpoint lstrip_with (drop : ascii -> bool) (s : string) : string :=
  match s with
  | EmptyString => EmptyString
  | String c s' => if drop c then lstrip_with drop s' else s
  end.

Fixpoint rstrip_with (drop : ascii -> bool) (s : string) : string :=
  match s with
  | EmptyString => EmptyString
  | String c s' =>
      match rstrip_with drop s' with
      | EmptyString => if drop c then EmptyString else String c EmptyString
      | r => String c r
      end
  end.

(** [s.strip()] *)
Definition strip (s : string) : string :=
  lstrip_with isspace (rstrip_with isspace s).

(** [s.rstrip(chars)] *)
Definition rstrip (s chars : string) : string :=
  rstrip_with (fun c => str_in (String c EmptyString) chars) s.

(** [str(n)] for an [int] *)
Definition str_of_int (n : Z) : string :=
  NilZero.string_of_int (Z.to_int n).

(** [\d] of the [re] module on a [str] pattern, for code points below 256:
    the decimal digits there are [0] to [9]. *)
Definition isdigit (c : ascii) : bool :=
  let n := N_of_ascii c in ((48 <=? n) && (n <=? 57))%N.

(** A regular expression that is a sequence of single-character atoms, which
    is all the pattern of the source needs. *)
Inductive atom : Type :=
| Lit (c : ascii)
| Digit.

Definition atom_matches (a : atom) (c : ascii) : bool :=
  match a with
  | Lit x => Ascii.eqb x c
  | Digit => isdigit c
  end.

Fixpoint match_here (p : list atom) (s : string) : bool :=
  match p with
  | [] => true
  | a :: p' =>
      match s with
      | EmptyString => false
      | String c s' => atom_matches a c && match_here p' s'
      end
  end.

Definition literal (s : string) : list atom :=
  map Lit (list_ascii_of_string s).

(** [re.search(p, s) is not None] *)
Fixpoint re_search (p : list atom) (s : string) : bool :=
  match_here p s ||
  match s with
  | EmptyString => false
  | String _ s' => re_search p s'
  end.

(** [re.sub(p, repl, s)] where [repl] holds no backslash: every match, found
    from the left and not overlapping the one before, becomes [repl]. *)
Fixpoint sub_from (p : list atom) (repl : string) (skip : nat) (s : string)
  : string :=
  match s with
  | EmptyString => EmptyString
  | String c s' =>
      match skip with
      | S k => sub_from p repl k s'
      | O =>
          if match_here p s
          then repl +:+ sub_from p repl (Nat.pred (List.length p)) s'
          else String c (sub_from p repl O s')
      end
  end.

Definition re_sub (p : list atom) (repl s : string) : string :=
  sub_from p repl O s.

(** [s.encode('utf-8')] for code points below 256: one byte below 128, two
    bytes from 128 on. *)
Definition byte_of_N (n : N) : Byte.byte :=
  match Byte.of_N n with
  | Some b => b
  | None => Byte.x00
  end.

Definition encode_char (c : ascii) : list Byte.byte :=
  let n := N_of_ascii c in
  if (n <? 128)%N then [byte_of_ascii c]
  else [byte_of_N (192 + n / 64); byte_of_N (128 + n mod 64)].

Fixpoint encode_utf8 (s : string) : list Byte.byte :=
  match s with
  | EmptyString => []
  | String c s' => encode_char c ++ encode_utf8 s'
  end.

(** [base64.b64encode(bs).decode('utf-8')] *)
Definition b64_alphabet : string :=
  "ABCDEFGHIJKLMNOPQRSTUVWXYZabcdefghijklmnopqrstuvwxyz0123456789+/".

Definition b64_char (n : N) : ascii :=
  match String.get (N.to_nat n) b64_alphabet with
  | Some c => c
  | None => "="%char
  end.

Fixpoint b64encode (bs : list Byte.byte) : string :=
  match bs with
  | [] => EmptyString
  | [a] =>
      let x := Byte.to_N a in
      String (b64_char (x / 4))
        (String (b64_char ((x mod 4) * 16)) "==")
  | [a; b] =>
      let x := Byte.to_N a in
      let y := Byte.to_N b in
      String (b64_char (x / 4))
        (String (b64_char ((x mod 4) * 16 + y / 16))
           (String (b64_char ((y mod 16) * 4)) "="))
  | a :: b :: c :: rest =>
      let x := Byte.to_N a in
      let y := Byte.to_N b in
      let z := Byte.to_N c in
      String (b64_char (x / 4))
        (String (b64_char ((x mod 4) * 16 + y / 16))
           (String (b64_char ((y mod 16) * 4 + z / 64))
              (String (b64_char (z mod 64)) (b64encode rest))))
  end%N.

(** [sep.join(l)] *)
Fixpoint join (sep : string) (l : list string) : string :=
  match l with
  | [] => EmptyString
  | [x] => x
  | x :: rest => x +:+ sep +:+ join sep rest
  end.

End Py.

(** ** The slide document

    What the source reads of a [pptx.Presentation]: slides hold shapes, a
    shape may have a text frame, a text frame holds paragraphs, and a
    paragraph holds runs, line breaks and text fields.  [paragraph.runs]
    yields the runs only; [paragraph.text] joins the text of all three kinds
    (a line break reads as a vertical tab), [shape.text] joins the
    paragraphs with a line feed. *)

Inductive inline : Type :=
| Run (text : string)
| LineBreak
| TextField (text : string).

Abbreviation paragraph := (list inline).

Record shape : Type := Shape {
  text_frame : option (list paragraph)
}.

Abbreviation slide := (list shape).
Abbreviation presentation := (list slide).

Definition vertical_tab : string := String (ascii_of_nat 11) EmptyString.
Definition line_feed : string := String (ascii_of_nat 10) EmptyString.

Definition inline_text (it : inline) : string :=
  match it with
  | Run t => t
  | LineBreak => vertical_tab
  | TextField t => t
  end.

Definition paragraph_text (p : paragraph) : string :=
  Py.join EmptyString (map inline_text p).

Definition text_frame_text (ps : list paragraph) : string :=
  Py.join line_feed (map paragraph_text ps).

(** *** Assigning to [run.text]

    [run.text = value] of the document library does not store [value] as it
    is: every control character of [value] other than the tab and the line
    feed (the code points 0 to 8 and 11 to 31) is stored as the seven
    characters [_xHHHH_], with [HHHH] its code point in upper-case
    hexadecimal.  Reading [run.text] gives the stored text back, without
    undoing this. *)

Definition is_escaped_control (c : ascii) : bool :=
  let n := N_of_ascii c in ((n <=? 8) || (11 <=? n) && (n <=? 31))%N.

Definition hex_digit (n : N) : ascii :=
  match String.get (N.to_nat n) "0123456789ABCDEF" with
  | Some c => c
  | None => "0"%char
  end.

(** ["%04X" % n] for a code point below 65536 *)
Definition hex4 (n : N) : string :=
  String (hex_digit (n / 4096))
    (String (hex_digit ((n / 256) mod 16))
       (String (hex_digit ((n / 16) mod 16))
          (String (hex_digit (n mod 16)) EmptyString)))%N.

Definition escape_char (c : ascii) : string :=
  if is_escaped_control c
  then "_x" +:+ hex4 (N_of_ascii c) +:+ "_"
  else String c EmptyString.

(** What [run.text] holds after [run.text = value] *)
Fixpoint assigned_text (value : string) : string :=
  match value with
  | EmptyString => EmptyString
  | String c value' => escape_char c +:+ assigned_text value'
  end.

(** ** [modify_pptx_template]: the loop over the runs

    The same function stands in [salesforce_replace.py] (lines 57-114) and in
    [salesforce_upload.py] (lines 66-123). *)

(** The pattern [r'31 December \d{4}'] *)
Definition date_pattern : list Py.atom :=
  Py.literal "31 December " ++ [Py.Digit; Py.Digit; Py.Digit; Py.Digit].

Section Rewriter.

Variables (company_name tier valid_through_date : string).

(** The two placeholder replacements of the loop body, on the text of one
    run: each [run.text = run.text.replace(...)] reads the stored text and
    assigns the new one. *)
Definition replace_placeholders (t : string) : string :=
  let t1 := if Py.str_in "<Company>" t
            then assigned_text (Py.replace t "<Company>" company_name)
            else t in
  if Py.str_in "<Tier>" t1
  then assigned_text (Py.replace t1 "<Tier>" tier)
  else t1.

(** The body of the innermost loop.  [shape_text t'] is what [shape.text]
    returns while the run holds [t']: the run is assigned to before
    [shape.text] is read.  The date branch assigns the result of [re.sub],
    also when no date was found. *)
Definition rewrite_run (shape_text : string -> string) (t : string) : string :=
  let t2 := replace_placeholders t in
  if Py.str_in "31 December" t2 && Py.str_in "Valid through" (shape_text t2)
  then assigned_text (Py.re_sub date_pattern valid_through_date t2)
  else t2.

(** [for run in paragraph.runs], in a shape whose paragraphs [before] are
    already rewritten and whose paragraphs [after] are not yet; [done] are
    the items of this paragraph already visited, [todo] those to come.  The
    runs are assigned to in place, so [shape.text] reads the rewritten text
    of every run visited so far. *)
Fixpoint run_loop (before : list paragraph) (done todo : paragraph)
    (after : list paragraph) : paragraph :=
  match todo with
  | [] => done
  | Run t :: rest =>
      let shape_text t' :=
        text_frame_text (before ++ (done ++ Run t' :: rest) :: after) in
      run_loop before (done ++ [Run (rewrite_run shape_text t)]) rest after
  | it :: rest => run_loop before (done ++ [it]) rest after
  end.

(** [for paragraph in shape.text_frame.paragraphs] *)
Fixpoint paragraph_loop (before todo : list paragraph) : list paragraph :=
  match todo with
  | [] => before
  | p :: after =>
      paragraph_loop (before ++ [run_loop before [] p after]) after
  end.

(** [if hasattr(shape, "text_frame")] and the loops inside it *)
Definition modify_shape (s : shape) : shape :=
  match text_frame s with
  | Some ps => Shape (Some (paragraph_loop [] ps))
  | None => s
  end.

(** [for slide in prs.slides: for shape in slide.shapes] *)
Definition modify_slides (prs : presentation) : presentation :=
  map (map modify_shape) prs.

End Rewriter.

(** [valid_through_date = f"31 December {current_year}"] *)
Definition valid_through (current_year : Z) : string :=
  "31 December " +:+ Py.str_of_int current_year.

(** ** Exceptions, and code that may raise *)

(** The exceptions ([Exception] and its subclasses) that the source raises
    itself ([ValueError]) or receives from [requests], from a subscript
    ([KeyError]) and from any other collaborator ([OtherException]).
    [HTTPError] keeps the status code of the response it was raised for.
    [SystemExit] and [KeyboardInterrupt] are not among them: they are no
    [Exception] and [except Exception] lets them pass. *)
Inductive exn : Type :=
| ValueError (msg : string)
| KeyError (key : string)
| HTTPError (msg : string) (status : Z)
| Timeout (msg : string)
| ConnectionError (msg : string)
| OtherException (msg : string).

(** [str(e)] *)
Definition str_exn (e : exn) : string :=
  match e with
  | ValueError msg => msg
  | KeyError key => "'" +:+ key +:+ "'"
  | HTTPError msg _ => msg
  | Timeout msg => msg
  | ConnectionError msg => msg
  | OtherException msg => msg
  end.

Inductive result (A : Type) : Type :=
| Ok (a : A)
| Raise (e : exn).

Arguments Ok {A} a.
Arguments Raise {A} e.

(** ** HTTP requests and responses *)

Inductive method : Type := GET | POST.

(** The values that the source puts in a JSON body. *)
Inductive jvalue : Type :=
| JStr (s : string)
| JBool (b : bool).

Record request : Type := Request {
  req_method : method;
  req_url : string;
  req_headers : gmap string string;
  req_params : gmap string string;
  req_json : option (gmap string jvalue);
  req_timeout : Z;
  req_stream : bool
}.

(** A JSON object of a response body, as far as the source reads it:
    [d.get('records')], [d.get('success')], [d['id']], and [str(d)]. *)
Record json_object : Type := JsonObject {
  get_records : option (list (gmap string string));
  get_success : option bool;
  get_id : option string;
  dict_repr : string
}.

Record response : Type := Response {
  status_code : Z;
  reason : string;
  resp_url : string;
  content : result (list Byte.byte);
  json : result json_object
}.

(** [response.raise_for_status()] of [requests]: it raises for the status
    codes 400 to 599 and for no other. *)
Definition raise_for_status (r : response) : result unit :=
  if (400 <=? status_code r) && (status_code r <? 500) then
    Raise (HTTPError (Py.str_of_int (status_code r) +:+ " Client Error: "
                      +:+ reason r +:+ " for url: " +:+ resp_url r)
             (status_code r))
  else if (500 <=? status_code r) && (status_code r <? 600) then
    Raise (HTTPError (Py.str_of_int (status_code r) +:+ " Server Error: "
                      +:+ reason r +:+ " for url: " +:+ resp_url r)
             (status_code r))
  else Ok tt.

(** ** The collaborators *)

Record credentials : Type := Credentials {
  url : string;
  access_token : string
}.

Record env : Type := Env {
  (** [connections.oauth2_auth_code(app_id)] *)
  oauth2_auth_code : string -> result credentials;
  (** [requests.get] and [requests.post]: a response, or [Timeout],
      [ConnectionError] and the like *)
  http : request -> result response;
  (** [datetime.now().year] *)
  now_year : Z;
  (** [Presentation(BytesIO(file_content))] *)
  Presentation : list Byte.byte -> result presentation;
  (** [prs.save(output_stream)] and the read of the stream *)
  save : presentation -> result (list Byte.byte)
}.

(** A computation returns or raises, and extends the trace of the HTTP
    requests sent so far. *)
Definition M (A : Type) : Type := list request -> result A * list request.

Definition ret {A} (a : A) : M A := fun tr => (Ok a, tr).

Definition raise {A} (e : exn) : M A := fun tr => (Raise e, tr).

Definition lift {A} (r : result A) : M A := fun tr => (r, tr).

Definition bind {A B} (c : M A) (k : A -> M B) : M B :=
  fun tr =>
    match c tr with
    | (Ok a, tr') => k a tr'
    | (Raise e, tr') => (Raise e, tr')
    end.

(** [try: c  except Exception as e: h e] *)
Definition try_except {A} (c : M A) (h : exn -> M A) : M A :=
  fun tr =>
    match c tr with
    | (Ok a, tr') => (Ok a, tr')
    | (Raise e, tr') => h e tr'
    end.

Notation "'let*' x ':=' c1 'in' c2" := (bind c1 (fun x => c2))
  (at level 10, x name, c1 at level 100, c2 at level 200).

Definition send (E : env) (rq : request) : M response :=
  fun tr => (http E rq, tr ++ [rq]).

Definition requests_get (E : env) (u : string) (headers params : gmap string string)
    (timeout : Z) (stream : bool) : M response :=
  send E (Request GET u headers params None timeout stream).

Definition requests_post (E : env) (u : string) (headers : gmap string string)
    (body : gmap string jvalue) (timeout : Z) : M response :=
  send E (Request POST u headers ∅ (Some body) timeout false).

(** ** Configuration constants (the same in the three files) *)

Definition SALESFORCE_APP_ID : string := "salesforce-wxo".
Definition SALESFORCE_API_VERSION : string := "v58.0".
Definition REQUEST_TIMEOUT : Z := 60.

(** ** The identifier resolver

    The [if]/[elif] chain on the prefix of [file_id], the same in the three
    handlers (replace: lines 168-226, simple: 92-150, upload: 273-335).  It
    yields [download_url]; the second component is
    [original_content_document_id], which only [salesforce_upload.py]
    keeps. *)

Definition version_data_url (base_url file_id : string) : string :=
  base_url +:+ "/services/data/" +:+ SALESFORCE_API_VERSION +:+ "/"
  +:+ "sobjects/ContentVersion/" +:+ file_id +:+ "/VersionData".

Definition attachment_body_url (base_url file_id : string) : string :=
  base_url +:+ "/services/data/" +:+ SALESFORCE_API_VERSION +:+ "/"
  +:+ "sobjects/Attachment/" +:+ file_id +:+ "/Body".

Definition no_file_found_msg (file_id : string) : string :=
  "No file found with ContentDocument ID: " +:+ file_id.

Definition unknown_format_msg (file_id : string) : string :=
  "Unknown Salesforce ID format: " +:+ file_id +:+ ". "
  +:+ "Expected ContentDocument (069), ContentVersion (068), "
  +:+ "or Attachment (00P)".

Definition resolve (E : env) (base_url : string) (headers : gmap string string)
    (file_id : string) : M (string * option string) :=
  if Py.startswith file_id "069" then
    let original_content_document_id := Some file_id in
    let query :=
      "SELECT Id FROM ContentVersion "
      +:+ "WHERE ContentDocumentId = '" +:+ file_id +:+ "' AND IsLatest = true" in
    let query_url :=
      base_url +:+ "/services/data/" +:+ SALESFORCE_API_VERSION +:+ "/query" in
    let* query_response :=
      requests_get E query_url headers {[ "q" := query ]} REQUEST_TIMEOUT false in
    let* _ := lift (raise_for_status query_response) in
    let* query_data := lift (json query_response) in
    match get_records query_data with
    | None | Some [] => raise (ValueError (no_file_found_msg file_id))
    | Some (record :: _) =>
        match record !! "Id" with
        | None => raise (KeyError "Id")
        | Some content_version_id =>
            ret (version_data_url base_url content_version_id,
                 original_content_document_id)
        end
    end
  else if Py.startswith file_id "068" then
    ret (version_data_url base_url file_id, None)
  else if Py.startswith file_id "00P" then
    ret (attachment_body_url base_url file_id, None)
  else
    raise (ValueError (unknown_format_msg file_id)).

(** ** The retriever

    The streamed GET of the three handlers (replace: lines 231-243, simple:
    155-167, upload: 340-352). *)
Definition retrieve (E : env) (download_url : string)
    (headers : gmap string string) : M (list Byte.byte) :=
  let* response := requests_get E download_url headers ∅ REQUEST_TIMEOUT true in
  let* _ := lift (raise_for_status response) in
  lift (content response).

(** The [headers] dictionary of the three handlers *)
Definition auth_headers (creds : credentials) : gmap string string :=
  {[ "Authorization" := "Bearer " +:+ access_token creds; "Accept" := "*/*" ]}.

(** ** The template rewriter, [modify_pptx_template] *)
Definition modify_pptx_template (E : env) (file_content : list Byte.byte)
    (company_name tier : string) : M (list Byte.byte) :=
  try_except
    (let* prs := lift (Presentation E file_content) in
     let current_year := now_year E in
     let valid_through_date := valid_through current_year in
     let prs' := modify_slides company_name tier valid_through_date prs in
     lift (save E prs'))
    (fun e => raise e).

(** ** [tools/salesforce_simple.py] *)

Module Simple.

Record SalesforceFileInput : Type := Input {
  file_id : string
}.

(** The body of the [try] block of [salesforce_download_file]. *)
Definition try_block (E : env) (input_data : SalesforceFileInput)
  : M (list Byte.byte) :=
  let file_id := Py.strip (file_id input_data) in
  if String.eqb file_id EmptyString then
    raise (ValueError "file_id cannot be empty")
  else
    let* creds := lift (oauth2_auth_code E SALESFORCE_APP_ID) in
    let base_url := Py.rstrip (url creds) "/" in
    let headers := auth_headers creds in
    let* resolved := resolve E base_url headers file_id in
    let download_url := fst resolved in
    let* file_content := retrieve E download_url headers in
    ret file_content.

Definition error_prefix : string := "Error downloading file from Salesforce: ".

Definition salesforce_download_file (E : env) (input_data : SalesforceFileInput)
  : M (list Byte.byte) :=
  try_except (try_block E input_data)
    (fun e =>
       let error_msg := error_prefix +:+ str_exn e in
       ret (Py.encode_utf8 error_msg)).

End Simple.

(** ** [tools/salesforce_replace.py] *)

Module Replace.

Record SalesforceFileInput : Type := Input {
  file_id : string;
  company_name : string;
  tier : string
}.

Definition try_block (E : env) (input_data : SalesforceFileInput)
  : M (list Byte.byte) :=
  let file_id := Py.strip (file_id input_data) in
  let company_name := Py.strip (company_name input_data) in
  let tier := Py.strip (tier input_data) in
  if String.eqb file_id EmptyString then
    raise (ValueError "file_id cannot be empty")
  else
    let* creds := lift (oauth2_auth_code E SALESFORCE_APP_ID) in
    let base_url := Py.rstrip (url creds) "/" in
    let headers := auth_headers creds in
    let* resolved := resolve E base_url headers file_id in
    let download_url := fst resolved in
    let* file_content := retrieve E download_url headers in
    let* modified_content :=
      modify_pptx_template E file_content company_name tier in
    ret modified_content.

Definition error_prefix : string := "Error processing file from Salesforce: ".

Definition salesforce_download_file (E : env) (input_data : SalesforceFileInput)
  : M (list Byte.byte) :=
  try_except (try_block E input_data)
    (fun e =>
       let error_msg := error_prefix +:+ str_exn e in
       ret (Py.encode_utf8 error_msg)).

End Replace.

(** ** [tools/salesforce_upload.py] *)

Module Upload.

Record SalesforceFileInput : Type := Input {
  file_id : string;
  company_name : string;
  tier : string;
  upload_back_to_salesforce : bool;
  title : string
}.

(** The dictionary that [upload_file_to_salesforce] returns. *)
Record upload_details : Type := UploadDetails {
  success : bool;
  content_version_id : string;
  content_document_id : option string;
  details_title : string;
  message : string
}.

(** The [payload] dictionary, lines 160-170.  An [if] on an optional string
    takes the [else] branch for [None] and for the empty string. *)
Definition upload_payload (encoded_file title : string)
    (original_content_document_id : option string) : gmap string jvalue :=
  let payload : gmap string jvalue :=
    {[ "Title" := JStr title;
       "PathOnClient" := JStr (title +:+ ".pptx");
       "VersionData" := JStr encoded_file;
       "IsMajorVersion" := JBool true ]} in
  match original_content_document_id with
  | Some d =>
      if String.eqb d EmptyString then payload
      else <[ "ContentDocumentId" := JStr d ]> payload
  | None => payload
  end.

Definition upload_file_to_salesforce (E : env) (base_url access_token : string)
    (file_content : list Byte.byte) (title : string)
    (original_content_document_id : option string) : M upload_details :=
  try_except
    (let upload_url :=
       base_url +:+ "/services/data/" +:+ SALESFORCE_API_VERSION
       +:+ "/sobjects/ContentVersion" in
     let headers : gmap string string :=
       {[ "Authorization" := "Bearer " +:+ access_token;
          "Content-Type" := "application/json" ]} in
     let encoded_file := Py.b64encode file_content in
     let payload :=
       upload_payload encoded_file title original_content_document_id in
     let* response :=
       requests_post E upload_url headers payload REQUEST_TIMEOUT in
     let* _ := lift (raise_for_status response) in
     let* upload_result := lift (json response) in
     match get_success upload_result with
     | Some true =>
         match get_id upload_result with
         | None => raise (KeyError "id")
         | Some content_version_id =>
             let query :=
               "SELECT ContentDocumentId FROM ContentVersion WHERE Id = '"
               +:+ content_version_id +:+ "'" in
             let query_url :=
               base_url +:+ "/services/data/" +:+ SALESFORCE_API_VERSION
               +:+ "/query" in
             let* query_response :=
               requests_get E query_url
                 {[ "Authorization" := "Bearer " +:+ access_token ]}
                 {[ "q" := query ]} REQUEST_TIMEOUT false in
             let* _ := lift (raise_for_status query_response) in
             let* query_data := lift (json query_response) in
             let* content_document_id :=
               match get_records query_data with
               | Some (record :: _) =>
                   match record !! "ContentDocumentId" with
                   | Some d => ret (Some d)
                   | None => raise (KeyError "ContentDocumentId")
                   end
               | _ => ret None
               end in
             ret (UploadDetails true content_version_id content_document_id
                    title "File uploaded successfully to Salesforce")
         end
     | _ => raise (ValueError ("Upload failed: " +:+ dict_repr upload_result))
     end)
    (fun e => raise e).

Definition default_title : string := "Partner_Plus_Certificate".

(** Lines 359-365: the title under which the file is uploaded. *)
Definition dynamic_title (title company_name tier : string) : string :=
  if String.eqb title default_title then
    let safe_company :=
      Py.replace (Py.replace company_name " " "_") "/" "_" in
    "Partner_Plus_Certificate_" +:+ tier +:+ "_" +:+ safe_company
  else title.

Definition try_block (E : env) (input_data : SalesforceFileInput)
  : M (list Byte.byte) :=
  let file_id := Py.strip (file_id input_data) in
  let company_name := Py.strip (company_name input_data) in
  let tier := Py.strip (tier input_data) in
  let upload_back := upload_back_to_salesforce input_data in
  let title := Py.strip (title input_data) in
  if String.eqb file_id EmptyString then
    raise (ValueError "file_id cannot be empty")
  else
    let* creds := lift (oauth2_auth_code E SALESFORCE_APP_ID) in
    let base_url := Py.rstrip (url creds) "/" in
    let headers := auth_headers creds in
    let* resolved := resolve E base_url headers file_id in
    let download_url := fst resolved in
    let* file_content := retrieve E download_url headers in
    let* modified_content :=
      modify_pptx_template E file_content company_name tier in
    let dynamic_title := dynamic_title title company_name tier in
    let* _ :=
      if upload_back then
        let* upload_result :=
          upload_file_to_salesforce E base_url (access_token creds)
            modified_content dynamic_title None in
        ret tt
      else ret tt in
    ret modified_content.

Definition error_prefix : string := "Error processing file from Salesforce: ".

Definition salesforce_download_file (E : env) (input_data : SalesforceFileInput)
  : M (list Byte.byte) :=
  try_except (try_block E input_data)
    (fun e =>
       let error_msg := error_prefix +:+ str_exn e in
       ret (Py.encode_utf8 error_msg)).

End Upload.

(** ** Notions used in the statements *)

(** The character [c] occurs in [s]. *)
Fixpoint char_in (c : ascii) (s : string) : bool :=
  match s with
  | EmptyString => false
  | String x s' => Ascii.eqb c x || char_in c s'
  end.

(** The first [k] characters of [s] differ from [c]. *)
Fixpoint head_free (c : ascii) (k : nat) (s : string) : Prop :=
  match k, s with
  | S k', String x s' => Ascii.eqb c x = false /\ head_free c k' s'
  | _, _ => True
  end.

(** The shape that [shape.text] reads when the loops reach the run at
    paragraph [i], item [j], while that run holds [t']: paragraphs and items
    before it are taken from the result [out], those after it from the
    input [ps]. *)
Definition shape_at_visit (ps out : list paragraph) (i j : nat) (t' : string)
  : list paragraph :=
  take i out
  ++ (take j (default [] (out !! i)) ++ Run t' :: drop (S j) (default [] (ps !! i)))
  :: drop (S i) ps.

(** The run of the certificate template and what it becomes. *)
Definition certificate_run_text : string :=
  "Certificate for <Company>, Tier: <Tier>. Valid through 31 December 2019.".

Definition certificate_run_expected : string :=
  "Certificate for Acme, Tier: Gold. Valid through 31 December 2025.".

(** The text holds a control character that an assignment to [run.text]
    would write out as [_xHHHH_]. *)
Fixpoint escapable (s : string) : bool :=
  match s with
  | EmptyString => false
  | String c s' => is_escaped_control c || escapable s'
  end.

(** A run that the loop body leaves as it is: it holds no placeholder token
    and, if it stands in a shape whose text contains "Valid through", no
    match of the date pattern; if it contains "31 December" there, so that
    its own text is assigned to it again, it holds no control character that
    the assignment would write out. *)
Definition settled_run (shape_text t : string) : bool :=
  negb (Py.str_in "<Company>" t) && negb (Py.str_in "<Tier>" t)
  && negb (Py.str_in "Valid through" shape_text
           && (Py.re_search date_pattern t
               || Py.str_in "31 December" t && escapable t)).

Definition settled_item (shape_text : string) (it : inline) : bool :=
  match it with
  | Run t => settled_run shape_text t
  | _ => true
  end.

Definition settled_paragraphs (shape_text : string) (ps : list paragraph) : bool :=
  forallb (forallb (settled_item shape_text)) ps.

Definition settled_shape (s : shape) : bool :=
  match text_frame s with
  | Some ps => settled_paragraphs (text_frame_text ps) ps
  | None => true
  end.

Definition settled (prs : presentation) : bool :=
  forallb (forallb settled_shape) prs.

(** [f] applied to every character. *)
Fixpoint string_map (f : ascii -> ascii) (s : string) : string :=
  match s with
  | EmptyString => EmptyString
  | String c s' => String (f c) (string_map f s')
  end.

(** A space and a slash become an underscore. *)
Definition safe_char (c : ascii) : ascii :=
  if Ascii.eqb c " " || Ascii.eqb c "/" then "_"%char else c.

(** The bytes [b] are a text that begins with [text]. *)
Definition begins_with (text : string) (b : list Byte.byte) : Prop :=
  exists rest, b = Py.encode_utf8 text ++ rest.

(** Every request that [c] sends satisfies [Q]. *)
Definition sends {A} (Q : request -> Prop) (c : M A) : Prop :=
  forall tr, exists ext, snd (c tr) = tr ++ ext /\ Forall Q ext.

(** The POST requests of a trace. *)
Definition is_post (rq : request) : bool :=
  match req_method rq with
  | POST => true
  | GET => false
  end.

Definition posts (tr : list request) : list request :=
  List.filter is_post tr.

(** The title that the uploading handler uploads under, from the request
    alone. *)
Definition uploaded_title (input_data : Upload.SalesforceFileInput) : string :=
  let title := Py.strip (Upload.title input_data) in
  if String.eqb title "Partner_Plus_Certificate" then
    "Partner_Plus_Certificate_" +:+ Py.strip (Upload.tier input_data) +:+ "_"
    +:+ string_map safe_char (Py.strip (Upload.company_name input_data))
  else title.

(** The body of the creation request for a title and a file. *)
Definition creation_body (title : string) (file_content : list Byte.byte)
  : gmap string jvalue :=
  {[ "Title" := JStr title;
     "PathOnClient" := JStr (title +:+ ".pptx");
     "VersionData" := JStr (Py.b64encode file_content);
     "IsMajorVersion" := JBool true ]}.

(** What a handler returns for what its [try] block did: the document, or
    the text of the error after [prefix]; that text begins with [head]. *)
Definition caught (prefix head : string)
    (block handler : result (list Byte.byte) * list request) : Prop :=
  match block with
  | (Ok document, tr) => handler = (Ok document, tr)
  | (Raise e, tr) =>
      handler = (Ok (Py.encode_utf8 (prefix +:+ str_exn e)), tr)
      /\ begins_with head (Py.encode_utf8 (prefix +:+ str_exn e))
  end.

(** The lookup request of the resolver for a container identifier. *)
Definition lookup_request (base_url : string) (headers : gmap string string)
    (file_id : string) : request :=
  Request GET
    (base_url +:+ "/services/data/" +:+ SALESFORCE_API_VERSION +:+ "/query")
    headers
    {[ "q" := "SELECT Id FROM ContentVersion "
              +:+ "WHERE ContentDocumentId = '" +:+ file_id
              +:+ "' AND IsLatest = true" ]}
    None REQUEST_TIMEOUT false.

(** The request of the retriever. *)
Definition download_request (download_url : string)
    (headers : gmap string string) : request :=
  Request GET download_url headers ∅ None REQUEST_TIMEOUT true.

(** Parsing [file_content] fails with [e], or serializing the rewritten
    document does. *)
Definition rewriter_fails (E : env) (file_content : list Byte.byte)
    (company_name tier : string) (e : exn) : Prop :=
  Presentation E file_content = Raise e
  \/ exists prs,
       Presentation E file_content = Ok prs
       /\ save E (modify_slides company_name tier
                    (valid_through (now_year E)) prs) = Raise e.

(** What holds of every creation request of the uploading handler: upload
    was asked for; the request goes to the creation endpoint; its body is
    the creation body for the title of the upload and for a document that
    the rewriter returned. *)
Definition creation_request_of (E : env)
    (input_data : Upload.SalesforceFileInput) (rq : request) : Prop :=
  req_method rq = POST ->
  Upload.upload_back_to_salesforce input_data = true
  /\ exists (creds : credentials) (file_content content : list Byte.byte)
       (tr tr' : list request),
       oauth2_auth_code E SALESFORCE_APP_ID = Ok creds
       /\ modify_pptx_template E file_content
            (Py.strip (Upload.company_name input_data))
            (Py.strip (Upload.tier input_data)) tr = (Ok content, tr')
       /\ req_url rq = Py.rstrip (url creds) "/" +:+ "/services/data/"
                       +:+ SALESFORCE_API_VERSION +:+ "/sobjects/ContentVersion"
       /\ req_json rq = Some (creation_body (uploaded_title input_data) content).

(** ** Collaborators to run the handlers on *)

Definition sample_presentation : presentation :=
  [[Shape (Some [[Run certificate_run_text]]); Shape None]].

Definition presentation_text (prs : presentation) : string :=
  Py.join line_feed
    (map (fun s => text_frame_text (default [] (text_frame s))) (concat prs)).

Definition sample_json : json_object :=
  JsonObject
    (Some [ {[ "Id" := "068VERSION0000001"; "ContentDocumentId" := "069DOCUMENT000002" ]} ])
    (Some true) (Some "068VERSION0000003") "{'id': '068VERSION0000003', 'success': True}".

Definition sample_credentials : credentials :=
  Credentials "https://example.my.salesforce.com/" "TOKEN".

Definition reply (status : Z) (reason : string) (data : json_object) : response :=
  Response status reason "https://example.my.salesforce.com/x"
    (Ok (Py.encode_utf8 "PK")) (Ok data).

(** Everything answers. *)
Definition sample_env : env :=
  Env (fun _ => Ok sample_credentials)
      (fun _ => Ok (reply 200 "OK" sample_json))
      2025
      (fun _ => Ok sample_presentation)
      (fun prs => Ok (Py.encode_utf8 (presentation_text prs))).

(** The server answers every request with 304. *)
Definition not_modified_env : env :=
  Env (fun _ => Ok sample_credentials)
      (fun _ => Ok (reply 304 "Not Modified" sample_json))
      2025
      (fun _ => Ok sample_presentation)
      (fun prs => Ok (Py.encode_utf8 (presentation_text prs))).

(** The server answers every request with 404. *)
Definition not_found_env : env :=
  Env (fun _ => Ok sample_credentials)
      (fun _ => Ok (reply 404 "Not Found" sample_json))
      2025
      (fun _ => Ok sample_presentation)
      (fun prs => Ok (Py.encode_utf8 (presentation_text prs))).

(** The query finds no record. *)
Definition no_record_env : env :=
  Env (fun _ => Ok sample_credentials)
      (fun _ => Ok (reply 200 "OK" (JsonObject (Some []) None None "{'records': []}")))
      2025
      (fun _ => Ok sample_presentation)
      (fun prs => Ok (Py.encode_utf8 (presentation_text prs))).

(** The downloaded file is not a slide document. *)
Definition bad_template_env : env :=
  Env (fun _ => Ok sample_credentials)
      (fun _ => Ok (reply 200 "OK" sample_json))
      2025
      (fun _ => Raise (OtherException "File is not a zip file"))
      (fun prs => Ok (Py.encode_utf8 (presentation_text prs))).

(** The creation request that the uploading handler sends on
    [sample_env]. *)
Definition sample_creation_request (title : string)
    (file_content : list Byte.byte) : request :=
  Request POST
    "https://example.my.salesforce.com/services/data/v58.0/sobjects/ContentVersion"
    {[ "Authorization" := "Bearer TOKEN";
       "Content-Type" := "application/json" ]}
    ∅ (Some (creation_body title file_content)) REQUEST_TIMEOUT false.

(** What [sample_env] serializes the rewritten [sample_presentation] to,
    for the company "Acme Corporation" and the tier "Gold". *)
Definition sample_document : list Byte.byte :=
  Py.encode_utf8
    ("Certificate for Acme Corporation, Tier: Gold. Valid through 31 December 2025."
     +:+ line_feed).

(** ** Further notions and collaborators *)

(** The first record of the lookup answer has no [Id]. *)
Definition no_id_env : env :=
  Env (fun _ => Ok sample_credentials)
      (fun _ => Ok (reply 200 "OK"
                      (JsonObject
                         (Some [ {[ "ContentDocumentId" := "069DOCUMENT000002" ]} ])
                         None None "{'records': [{}]}")))
      2025
      (fun _ => Ok sample_presentation)
      (fun prs => Ok (Py.encode_utf8 (presentation_text prs))).

(** The answers have no [records] entry and no [success] entry. *)
Definition bare_answer_env : env :=
  Env (fun _ => Ok sample_credentials)
      (fun _ => Ok (reply 200 "OK" (JsonObject None None None "{}")))
      2025
      (fun _ => Ok sample_presentation)
      (fun prs => Ok (Py.encode_utf8 (presentation_text prs))).

(** A request as every handler sends it: the timeout of 60 seconds, the
    bearer token of the credentials, an address below the versioned API
    root of the instance. *)
Definition request_ok (creds : credentials) (rq : request) : Prop :=
  req_timeout rq = 60
  /\ req_headers rq !! "Authorization"
     = Some ("Bearer " +:+ access_token creds)
  /\ Py.startswith (req_url rq)
       (Py.rstrip (url creds) "/" +:+ "/services/data/v58.0/") = true.

(** [c] sends at most [n] requests. *)
Definition sends_at_most {A} (n : nat) (c : M A) : Prop :=
  forall tr, exists ext, snd (c tr) = tr ++ ext /\ (length ext <= n)%nat.

(** Two items of the same kind: two runs, two line breaks, or twice the
    same text field. *)
Definition same_kind (a b : inline) : Prop :=
  match a, b with
  | Run _, Run _ => True
  | LineBreak, LineBreak => True
  | TextField t, TextField t' => t = t'
  | _, _ => False
  end.

(** Two shapes with the same layout: both without a text frame, or with
    paragraphs that hold items of the same kinds in the same order. *)
Definition same_layout (s s' : shape) : Prop :=
  match text_frame s, text_frame s' with
  | None, None => True
  | Some ps, Some ps' => Forall2 (Forall2 same_kind) ps ps'
  | _, _ => False
  end.

(** The creation request of the uploader. *)
Definition creation_request (base_url access_token : string)
    (file_content : list Byte.byte) (title : string)
    (original_content_document_id : option string) : request :=
  Request POST
    (base_url +:+ "/services/data/v58.0/sobjects/ContentVersion")
    {[ "Authorization" := "Bearer " +:+ access_token;
       "Content-Type" := "application/json" ]}
    ∅
    (Some (Upload.upload_payload (Py.b64encode file_content) title
             original_content_document_id))
    60 false.

(** The lookup that the uploader sends after the creation. *)
Definition followup_request (base_url access_token content_version_id : string)
  : request :=
  Request GET (base_url +:+ "/services/data/v58.0/query")
    {[ "Authorization" := "Bearer " +:+ access_token ]}
    {[ "q" := "SELECT ContentDocumentId FROM ContentVersion WHERE Id = '"
              +:+ content_version_id +:+ "'" ]}
    None 60 false.

(** The creation is answered, the lookup after it finds no record. *)
Definition no_parent_env : env :=
  Env (fun _ => Ok sample_credentials)
      (fun rq =>
         match req_method rq with
         | POST => Ok (reply 201 "Created" sample_json)
         | GET =>
             Ok (reply 200 "OK"
                   (JsonObject (Some []) None None "{'records': []}"))
         end)
      2025
      (fun _ => Ok sample_presentation)
      (fun prs => Ok (Py.encode_utf8 (presentation_text prs))).

(** The creation is answered, the lookup after it times out. *)
Definition followup_timeout_env : env :=
  Env (fun _ => Ok sample_credentials)
      (fun rq =>
         match req_method rq with
         | POST => Ok (reply 201 "Created" sample_json)
         | GET => Raise (Timeout "Read timed out. (read timeout=60)")
         end)
      2025
      (fun _ => Ok sample_presentation)
      (fun prs => Ok (Py.encode_utf8 (presentation_text prs))).

(** The credential store is not there (the fallback of the source defines
    no [connections]). *)
Definition no_credentials_env : env :=
  Env (fun _ => Raise (OtherException "name 'connections' is not defined"))
      (fun _ => Ok (reply 200 "OK" sample_json))
      2025
      (fun _ => Ok sample_presentation)
      (fun prs => Ok (Py.encode_utf8 (presentation_text prs))).

(** Downloads are answered, creations are answered with 500. *)
Definition upload_down_env : env :=
  Env (fun _ => Ok sample_credentials)
      (fun rq =>
         match req_method rq with
         | POST => Ok (reply 500 "Server Error" sample_json)
         | GET => Ok (reply 200 "OK" sample_json)
         end)
      2025
      (fun _ => Ok sample_presentation)
      (fun prs => Ok (Py.encode_utf8 (presentation_text prs))).

(** * Properties *)

(** ** The operations on small inputs *)

Example startswith_069 : Py.startswith "069NS00000VGfOjYAL" "069" = true.
Proof. reflexivity. Qed.

Example replace_twice : Py.replace "a<T>b<T>" "<T>" "xy" = "axybxy".
Proof. reflexivity. Qed.

Example replace_empty_old : Py.replace "abc" EmptyString "-" = "-a-b-c-".
Proof. reflexivity. Qed.

Example strip_both : Py.strip "  069 x  " = "069 x".
Proof. reflexivity. Qed.

Example rstrip_slash : Py.rstrip "https://x.my.salesforce.com//" "/" = "https://x.my.salesforce.com".
Proof. reflexivity. Qed.

Example str_of_int_2025 : Py.str_of_int 2025 = "2025".
Proof. reflexivity. Qed.

Example b64_Man : Py.b64encode (Py.encode_utf8 "Many hands") = "TWFueSBoYW5kcw==".
Proof. reflexivity. Qed.

Example b64_pads_one : Py.b64encode (Py.encode_utf8 "light wor") = "bGlnaHQgd29y".
Proof. reflexivity. Qed.

Example b64_pads_two : Py.b64encode (Py.encode_utf8 "light work") = "bGlnaHQgd29yaw==".
Proof. reflexivity. Qed.

Example b64_pads_three : Py.b64encode (Py.encode_utf8 "light wo") = "bGlnaHQgd28=".
Proof. reflexivity. Qed.

Example certificate_run :
  modify_slides "Acme" "Gold" (valid_through 2025)
    [[Shape (Some [[Run "Certificate for <Company>, Tier: <Tier>. Valid through 31 December 2019."]])]]
  = [[Shape (Some [[Run "Certificate for Acme, Tier: Gold. Valid through 31 December 2025."]])]].
Proof. reflexivity. Qed.

Example date_in_other_run :
  modify_slides "Acme" "Gold" (valid_through 2025)
    [[Shape (Some [[Run "Valid through "; Run "31 December 2019"]; [Run "31 December 20"]])]]
  = [[Shape (Some [[Run "Valid through "; Run "31 December 2025"]; [Run "31 December 20"]])]].
Proof. reflexivity. Qed.

Example assigned_text_control_characters :
  assigned_text
    ("a" +:+ String (ascii_of_nat 9) (String (ascii_of_nat 10)
       (String (ascii_of_nat 11) (String (ascii_of_nat 13) "b"))))
  = "a" +:+ String (ascii_of_nat 9) (String (ascii_of_nat 10) "_x000B__x000D_b").
Proof. reflexivity. Qed.

Example company_name_with_control_character :
  modify_slides ("A" +:+ vertical_tab +:+ "B") "Gold" "31 December 2025"
    [[Shape (Some [[Run "For <Company>"]])]]
  = [[Shape (Some [[Run "For A_x000B_B"]])]].
Proof. reflexivity. Qed.

(** A run that contains "31 December" in a shape with "Valid through" is
    assigned to even when no date matches, and the assignment writes out its
    control characters. *)
Example reassigned_run :
  modify_slides "Acme" "Gold" "31 December 2025"
    [[Shape (Some [[Run "Valid through ";
                    Run ("31 December" +:+ String (ascii_of_nat 13) EmptyString)]])]]
  = [[Shape (Some [[Run "Valid through "; Run "31 December_x000D_"]])]].
Proof. reflexivity. Qed.

Example date_without_valid_through :
  modify_slides "Acme" "Gold" (valid_through 2025)
    [[Shape (Some [[Run "Issued 31 December 2019"]])]]
  = [[Shape (Some [[Run "Issued 31 December 2019"]])]].
Proof. reflexivity. Qed.

(** ** Facts on strings *)

Lemma append_cons (c : ascii) (s t : string) :
  String c s +:+ t = String c (s +:+ t).
Proof. reflexivity. Qed.

Lemma append_nil_l (s : string) : EmptyString +:+ s = s.
Proof. reflexivity. Qed.

Lemma append_nil_r (s : string) : s +:+ EmptyString = s.
Proof.
  induction s as [|c s IH]; [reflexivity|].
  now rewrite append_cons, IH.
Qed.

Lemma append_assoc (a b c : string) : (a +:+ b) +:+ c = a +:+ b +:+ c.
Proof.
  induction a as [|x a IH]; [reflexivity|].
  now rewrite !append_cons, IH.
Qed.

Lemma startswith_app (s pre x : string) :
  Py.startswith s pre = true -> Py.startswith (s +:+ x) pre = true.
Proof.
  revert s. induction pre as [|a pre IH]; intros s H; [reflexivity|].
  destruct s as [|b s]; [discriminate|].
  rewrite append_cons. cbn [Py.startswith] in *.
  apply andb_true_iff in H as [Hab Hs].
  rewrite Hab. simpl. now apply IH.
Qed.

Lemma startswith_self_app (pre x : string) : Py.startswith (pre +:+ x) pre = true.
Proof.
  induction pre as [|a pre IH]; [reflexivity|].
  rewrite append_cons. cbn [Py.startswith].
  now rewrite Ascii.eqb_refl.
Qed.

Lemma str_in_app_l (sub a b : string) :
  Py.str_in sub a = true -> Py.str_in sub (a +:+ b) = true.
Proof.
  induction a as [|c a IH]; intros H.
  - cbn [Py.str_in] in H. rewrite orb_false_r in H.
    destruct sub; [|discriminate]. destruct b; reflexivity.
  - cbn [Py.str_in] in H. apply orb_true_iff in H as [H|H].
    + pose proof (startswith_app _ _ b H) as H'.
      rewrite append_cons in *. cbn [Py.str_in]. now rewrite H'.
    + rewrite append_cons. cbn [Py.str_in].
      rewrite (IH H). apply orb_true_r.
Qed.

Lemma str_in_app_r (sub a b : string) :
  Py.str_in sub b = true -> Py.str_in sub (a +:+ b) = true.
Proof.
  intros H. induction a as [|c a IH]; [exact H|].
  rewrite append_cons. cbn [Py.str_in].
  rewrite IH. apply orb_true_r.
Qed.

Lemma str_in_middle (sub a t b : string) :
  Py.str_in sub t = true -> Py.str_in sub (a +:+ t +:+ b) = true.
Proof. intros H. apply str_in_app_r, str_in_app_l, H. Qed.

Lemma encode_utf8_app (a b : string) :
  Py.encode_utf8 (a +:+ b) = Py.encode_utf8 a ++ Py.encode_utf8 b.
Proof.
  induction a as [|c a IH]; [reflexivity|].
  rewrite append_cons. cbn [Py.encode_utf8].
  now rewrite IH, app_assoc.
Qed.

(** A text without a match of the pattern is left as it is by [re.sub]. *)
Lemma re_sub_no_match (p : list Py.atom) (repl s : string) :
  Py.re_search p s = false -> Py.re_sub p repl s = s.
Proof.
  unfold Py.re_sub. induction s as [|c s IH]; [reflexivity|].
  cbn [Py.re_search Py.sub_from]. intros H.
  apply orb_false_iff in H as [Hm Hs].
  rewrite Hm, (IH Hs). reflexivity.
Qed.

(** *** [str.replace] keeps an occurrence of a text that it cannot touch

    [d] stands in [s]; the first character of [d] is not a character of
    [old], and the first character of [old] is not a character of [d]: then
    no occurrence of [old] overlaps one of [d]. *)

Lemma head_free_of_startswith (c : ascii) (w s : string) :
  char_in c w = false -> Py.startswith s w = true ->
  head_free c (String.length w) s.
Proof.
  revert s. induction w as [|x w IH]; intros s Hc Hs; [destruct s; exact I|].
  destruct s as [|y s]; [exact I|]. simpl in *.
  apply orb_false_iff in Hc as [Hcx Hcw].
  apply andb_true_iff in Hs as [Hxy Hs].
  apply Ascii.eqb_eq in Hxy. subst y. split; [exact Hcx|]. now apply IH.
Qed.

Section ReplaceKeeps.

Variables (o0 : ascii) (old' new : string) (d0 : ascii) (d' : string).
Local Abbreviation old := (String o0 old').
Local Abbreviation d := (String d0 d').
Hypothesis d0_not_in_old : char_in d0 old = false.
Hypothesis o0_not_in_d : char_in o0 d = false.

Lemma replace_from_keeps_prefix (w s : string) :
  char_in o0 w = false -> Py.startswith s w = true ->
  Py.startswith (Py.replace_from old new O s) w = true.
Proof.
  revert s. induction w as [|x w IH]; intros s Hc Hs; [reflexivity|].
  destruct s as [|y s]; [discriminate|].
  simpl in Hc, Hs.
  apply orb_false_iff in Hc as [Hox Hcw].
  apply andb_true_iff in Hs as [Hxy Hs].
  apply Ascii.eqb_eq in Hxy. subst y.
  cbn [Py.replace_from].
  replace (Py.startswith (String x s) old) with false.
  - cbn [Py.startswith]. rewrite Ascii.eqb_refl. simpl. now apply IH.
  - cbn [Py.startswith]. rewrite Hox. reflexivity.
Qed.

Lemma replace_from_keeps (s : string) (skip : nat) :
  head_free d0 skip s -> Py.str_in d s = true ->
  Py.str_in d (Py.replace_from old new skip s) = true.
Proof.
  revert skip. induction s as [|c s IH]; intros skip Hfree Hin.
  - discriminate.
  - cbn [Py.str_in] in Hin. cbn [Py.replace_from].
    destruct skip as [|k].
    + destruct (Py.startswith (String c s) old) eqn:Hold.
      * (* an occurrence of [old] starts here: [d] does not *)
        assert (Hc : c = o0).
        { cbn [Py.startswith] in Hold.
          apply andb_true_iff in Hold as [H _].
          apply Ascii.eqb_eq in H. now subst. }
        assert (Hs : Py.startswith s old' = true).
        { cbn [Py.startswith] in Hold.
          now apply andb_true_iff in Hold as [_ H]. }
        assert (Hd : Py.startswith (String c s) d = false).
        { cbn [Py.startswith]. subst c.
          pose proof o0_not_in_d as H. cbn [char_in] in H.
          apply orb_false_iff in H as [H _].
          rewrite Ascii.eqb_sym, H. reflexivity. }
        rewrite Hd in Hin. simpl in Hin.
        apply str_in_app_r. apply IH; [|exact Hin].
        cbn [String.length Nat.pred].
        apply head_free_of_startswith; [|exact Hs].
        pose proof d0_not_in_old as H. cbn [char_in] in H.
        now apply orb_false_iff in H as [_ H].
      * apply orb_true_iff in Hin as [Hd|Hin].
        -- pose proof (replace_from_keeps_prefix d (String c s) o0_not_in_d Hd) as H.
           cbn [Py.replace_from] in H. rewrite Hold in H.
           cbn [Py.str_in]. rewrite H. reflexivity.
        -- cbn [Py.str_in]. rewrite (IH O); [apply orb_true_r|exact I|exact Hin].
    + destruct Hfree as [Hne Hfree].
      assert (Hd : Py.startswith (String c s) d = false).
      { cbn [Py.startswith]. rewrite Hne. reflexivity. }
      rewrite Hd in Hin. simpl in Hin. now apply IH.
Qed.

Lemma replace_keeps (s : string) :
  Py.str_in d s = true -> Py.str_in d (Py.replace s old new) = true.
Proof. intros H. unfold Py.replace. now apply replace_from_keeps. Qed.

End ReplaceKeeps.

(** ** Facts on the assignment to [run.text] *)

Lemma assigned_text_app (a b : string) :
  assigned_text (a +:+ b) = assigned_text a +:+ assigned_text b.
Proof.
  induction a as [|c a IH]; [reflexivity|].
  rewrite append_cons. cbn [assigned_text].
  now rewrite IH, append_assoc.
Qed.

Lemma assigned_text_plain (s : string) :
  escapable s = false -> assigned_text s = s.
Proof.
  induction s as [|c s IH]; [reflexivity|].
  cbn [escapable assigned_text]. intros H.
  apply orb_false_iff in H as [Hc Hs].
  unfold escape_char. now rewrite Hc, (IH Hs).
Qed.

Lemma startswith_assigned_text (s d : string) :
  escapable d = false -> Py.startswith s d = true ->
  Py.startswith (assigned_text s) d = true.
Proof.
  revert s. induction d as [|x d IH]; intros s Hd Hs; [reflexivity|].
  destruct s as [|y s]; [discriminate|].
  cbn [escapable] in Hd. apply orb_false_iff in Hd as [Hx Hd].
  cbn [Py.startswith] in Hs. apply andb_true_iff in Hs as [Hxy Hs].
  apply Ascii.eqb_eq in Hxy. subst y.
  cbn [assigned_text]. unfold escape_char. rewrite Hx.
  rewrite append_cons, append_nil_l. cbn [Py.startswith].
  rewrite Ascii.eqb_refl. now apply IH.
Qed.

(** An assignment keeps every occurrence of a text without control
    characters. *)
Lemma str_in_assigned_text (d s : string) :
  escapable d = false -> Py.str_in d s = true ->
  Py.str_in d (assigned_text s) = true.
Proof.
  intros Hd. induction s as [|c s IH]; intros H.
  - exact H.
  - cbn [Py.str_in] in H. apply orb_true_iff in H as [H|H].
    + pose proof (startswith_assigned_text _ _ Hd H) as H'.
      destruct (assigned_text (String c s)) as [|z r]; cbn [Py.str_in];
        rewrite H'; reflexivity.
    + cbn [assigned_text]. apply str_in_app_r. now apply IH.
Qed.

(** ** The text of a shape around one run *)

Lemma join_middle (sep x : string) (l1 l2 : list string) :
  exists a b, Py.join sep (l1 ++ x :: l2) = a +:+ x +:+ b.
Proof.
  induction l1 as [|y l1 IH].
  - destruct l2 as [|z l2].
    + exists EmptyString, EmptyString. cbn. now rewrite append_nil_r.
    + exists EmptyString, (sep +:+ Py.join sep (z :: l2)). reflexivity.
  - destruct IH as (a & b & IH).
    exists (y +:+ sep +:+ a), b.
    change ((y :: l1) ++ x :: l2) with (y :: (l1 ++ x :: l2)).
    destruct (l1 ++ x :: l2) as [|z l] eqn:E.
    + destruct l1; discriminate.
    + cbn [Py.join]. cbn [Py.join] in IH. rewrite IH.
      now rewrite !append_assoc.
Qed.

(** The text of a shape is the text of any of its runs with something before
    and something after. *)
Lemma text_frame_text_run (before after : list paragraph)
    (done rest : paragraph) (t : string) :
  exists a b,
    text_frame_text (before ++ (done ++ Run t :: rest) :: after)
    = a +:+ t +:+ b.
Proof.
  unfold text_frame_text. rewrite map_app. cbn [map].
  destruct (join_middle line_feed (paragraph_text (done ++ Run t :: rest))
              (map paragraph_text before) (map paragraph_text after))
    as (a & b & ->).
  unfold paragraph_text. rewrite map_app. cbn [map inline_text].
  destruct (join_middle EmptyString t (map inline_text done)
              (map inline_text rest)) as (a' & b' & ->).
  exists (a +:+ a'), (b' +:+ b). now rewrite !append_assoc.
Qed.

Lemma str_in_text_frame_text (sub : string) (before after : list paragraph)
    (done rest : paragraph) (t : string) :
  Py.str_in sub t = true ->
  Py.str_in sub (text_frame_text (before ++ (done ++ Run t :: rest) :: after))
  = true.
Proof.
  intros H.
  destruct (text_frame_text_run before after done rest t) as (a & b & ->).
  now apply str_in_middle.
Qed.

(** ** What the loops do at one run *)

Section Visit.

Variables (company_name tier valid_through_date : string).

Local Abbreviation runs := (run_loop company_name tier valid_through_date).
Local Abbreviation paragraphs :=
  (paragraph_loop company_name tier valid_through_date).
Local Abbreviation at_run := (rewrite_run company_name tier valid_through_date).

(** The items already visited stay as they are. *)
Lemma run_loop_done (before after : list paragraph) (todo done : paragraph) :
  exists out, runs before done todo after = done ++ out
              /\ length out = length todo.
Proof.
  revert done. induction todo as [|it rest IH]; intros done.
  - exists []. now rewrite app_nil_r.
  - destruct it as [t| |t]; cbn [run_loop];
      match goal with
      | |- context [run_loop _ _ _ _ (done ++ [?x]) _ _] =>
          destruct (IH (done ++ [x])) as (out & -> & Hlen);
          exists (x :: out); rewrite <- app_assoc; split;
          [reflexivity | simpl; now rewrite Hlen]
      end.
Qed.

(** The run at position [j] of what is still to visit becomes
    [rewrite_run] of its text, where [shape.text] is read off a shape in
    which everything before the run is rewritten and everything after it is
    not. *)
Lemma run_loop_visit (before after : list paragraph) (todo done : paragraph)
    (j : nat) (t : string) :
  todo !! j = Some (Run t) ->
  let out := runs before done todo after in
  out !! (length done + j)%nat =
    Some (Run (at_run
                 (fun t' => text_frame_text
                    (before ++ (take (length done + j) out
                                ++ Run t' :: drop (S j) todo) :: after))
                 t)).
Proof.
  revert done j. induction todo as [|it rest IH]; intros done j Hj out.
  - discriminate.
  - destruct j as [|j].
    + cbn in Hj. injection Hj as ->.
      subst out. cbn [run_loop]. rewrite Nat.add_0_r.
      match goal with
      | |- context [run_loop _ _ _ _ (done ++ [?x]) _ _] =>
          destruct (run_loop_done before after rest (done ++ [x]))
            as (o & -> & _)
      end.
      rewrite <- app_assoc. cbn [app].
      rewrite take_app_length.
      rewrite lookup_app_r by lia. rewrite Nat.sub_diag. reflexivity.
    + cbn in Hj.
      assert (Hstep : exists x, out = runs before (done ++ [x]) rest after).
      { subst out. destruct it; cbn [run_loop]; eauto. }
      destruct Hstep as (x & ->).
      specialize (IH (done ++ [x]) j Hj). cbn zeta in IH.
      rewrite length_app in IH. cbn [length] in IH.
      replace (length done + 1 + j)%nat with (length done + S j)%nat in IH by lia.
      exact IH.
Qed.

Lemma paragraph_loop_before (todo before : list paragraph) :
  exists out, paragraphs before todo = before ++ out
              /\ length out = length todo.
Proof.
  revert before. induction todo as [|p after IH]; intros before.
  - exists []. now rewrite app_nil_r.
  - cbn [paragraph_loop].
    destruct (IH (before ++ [runs before [] p after])) as (out & -> & Hlen).
    exists (runs before [] p after :: out). rewrite <- app_assoc. split;
      [reflexivity | simpl; now rewrite Hlen].
Qed.

Lemma paragraph_loop_visit (todo before : list paragraph) (i : nat)
    (p : paragraph) :
  todo !! i = Some p ->
  let out := paragraphs before todo in
  out !! (length before + i)%nat =
    Some (runs (take (length before + i) out) [] p (drop (S i) todo)).
Proof.
  revert before i. induction todo as [|q after IH]; intros before i Hi out.
  - discriminate.
  - destruct i as [|i].
    + cbn in Hi. injection Hi as ->.
      subst out. cbn [paragraph_loop]. rewrite Nat.add_0_r.
      destruct (paragraph_loop_before after (before ++ [runs before [] p after]))
        as (o & -> & _).
      rewrite <- app_assoc. cbn [app].
      rewrite take_app_length.
      rewrite lookup_app_r by lia. rewrite Nat.sub_diag. reflexivity.
    + cbn in Hi. subst out. cbn [paragraph_loop].
      specialize (IH (before ++ [runs before [] q after]) i Hi).
      cbn zeta in IH. rewrite length_app in IH. cbn [length] in IH.
      replace (length before + 1 + i)%nat with (length before + S i)%nat in IH by lia.
      exact IH.
Qed.

Lemma modify_shape_visit (ps : list paragraph) (i j : nat) (p : paragraph)
    (t : string) :
  ps !! i = Some p -> p !! j = Some (Run t) ->
  let out := paragraphs [] ps in
  exists q, out !! i = Some q /\
    q !! j = Some (Run (at_run
                          (fun t' => text_frame_text (shape_at_visit ps out i j t'))
                          t)).
Proof.
  intros Hi Hj out.
  pose proof (paragraph_loop_visit ps [] i p Hi) as Hp.
  cbn zeta in Hp. cbn [length Nat.add] in Hp. fold out in Hp.
  eexists. split; [exact Hp|].
  pose proof (run_loop_visit (take i out) (drop (S i) ps) p [] j t Hj) as Hr.
  cbn zeta in Hr. cbn [length Nat.add] in Hr.
  rewrite Hr. unfold shape_at_visit. rewrite Hp, Hi. reflexivity.
Qed.

End Visit.

(** ** Errors at the handler boundary *)

Lemma begins_with_app (head more tail : string) :
  begins_with head (Py.encode_utf8 ((head +:+ more) +:+ tail)).
Proof.
  exists (Py.encode_utf8 (more +:+ tail)).
  now rewrite append_assoc, encode_utf8_app.
Qed.

Lemma try_except_caught (prefix head more : string) (c : M (list Byte.byte))
    (tr : list request) :
  prefix = head +:+ more ->
  caught prefix head (c tr)
    (try_except c
       (fun e => ret (Py.encode_utf8 (prefix +:+ str_exn e))) tr).
Proof.
  intros ->. unfold caught, try_except.
  destruct (c tr) as [[document|e] tr']; [reflexivity|].
  split; [reflexivity | apply begins_with_app].
Qed.

(** C1, as the code has it.  Whatever the [try] block of a handler raises
    is caught, and the handler returns, as UTF-8 bytes, the text of the
    error after a fixed prefix; it never raises.  The text begins with
    "Error processing file" in the rewriting and the uploading handler, and
    with "Error downloading file" in the plain download handler. *)
Theorem C1_errors_returned_as_text (E : env) (tr : list request) :
  (forall input_data,
     caught Replace.error_prefix "Error processing file"
       (Replace.try_block E input_data tr)
       (Replace.salesforce_download_file E input_data tr))
  /\ (forall input_data,
        caught Upload.error_prefix "Error processing file"
          (Upload.try_block E input_data tr)
          (Upload.salesforce_download_file E input_data tr))
  /\ (forall input_data,
        caught Simple.error_prefix "Error downloading file"
          (Simple.try_block E input_data tr)
          (Simple.salesforce_download_file E input_data tr)).
Proof.
  repeat split; intros input_data;
    apply (try_except_caught _ _ " from Salesforce: "); reflexivity.
Qed.

(** C1 as stated fails on the plain download handler: for an identifier
    with an unknown prefix it returns a text that does not begin with
    "Error processing file". *)
Lemma C1_counterexample :
  Simple.salesforce_download_file sample_env (Simple.Input "12345") []
  = (Ok (Py.encode_utf8
           ("Error downloading file from Salesforce: "
            +:+ unknown_format_msg "12345")), [])
  /\ ~ begins_with "Error processing file"
         (Py.encode_utf8
            ("Error downloading file from Salesforce: "
             +:+ unknown_format_msg "12345")).
Proof.
  split; [reflexivity|].
  intros [rest H]. vm_compute in H. discriminate H.
Qed.

(** ** The identifier resolver *)

(** C5.  An identifier that starts with none of 069, 068 and 00P makes the
    resolver raise the format error ([ValueError] with the message
    "Unknown Salesforce ID format"), without sending any request, and the
    message names the three prefixes. *)
Theorem C5_unknown_prefix_rejected (E : env) (base_url : string)
    (headers : gmap string string) (file_id : string) (tr : list request) :
  Py.startswith file_id "069" = false ->
  Py.startswith file_id "068" = false ->
  Py.startswith file_id "00P" = false ->
  resolve E base_url headers file_id tr
  = (Raise (ValueError (unknown_format_msg file_id)), tr)
  /\ Py.str_in "069" (unknown_format_msg file_id) = true
  /\ Py.str_in "068" (unknown_format_msg file_id) = true
  /\ Py.str_in "00P" (unknown_format_msg file_id) = true.
Proof.
  intros H069 H068 H00P. split.
  - unfold resolve. now rewrite H069, H068, H00P.
  - unfold unknown_format_msg.
    repeat split; apply str_in_app_r, str_in_app_r; reflexivity.
Qed.

Lemma C5_witness :
  resolve sample_env "https://example.my.salesforce.com" ∅ "123" []
  = (Raise (ValueError (unknown_format_msg "123")), [])
  /\ Py.str_in "069" (unknown_format_msg "123") = true
  /\ Py.str_in "068" (unknown_format_msg "123") = true
  /\ Py.str_in "00P" (unknown_format_msg "123") = true.
Proof.
  apply (C5_unknown_prefix_rejected sample_env
           "https://example.my.salesforce.com" ∅ "123" []); reflexivity.
Defined.

(** C6.  For an identifier with the prefix 069 whose lookup query is
    answered with no record, the resolver raises the not-found error
    ([ValueError] with the message "No file found with ContentDocument ID"),
    after the one lookup request. *)
Theorem C6_no_record_not_found (E : env) (base_url : string)
    (headers : gmap string string) (file_id : string) (tr : list request)
    (query_response : response) (query_data : json_object) :
  Py.startswith file_id "069" = true ->
  http E (lookup_request base_url headers file_id) = Ok query_response ->
  raise_for_status query_response = Ok tt ->
  json query_response = Ok query_data ->
  get_records query_data = Some [] ->
  resolve E base_url headers file_id tr
  = (Raise (ValueError (no_file_found_msg file_id)),
     tr ++ [lookup_request base_url headers file_id]).
Proof.
  intros H069 Hhttp Hstatus Hjson Hrecords.
  unfold resolve. rewrite H069.
  unfold bind, requests_get, send, lift. fold (lookup_request base_url headers file_id).
  rewrite Hhttp, Hstatus, Hjson, Hrecords. reflexivity.
Qed.

Lemma C6_witness :
  resolve no_record_env "https://example.my.salesforce.com" ∅ "069abc" []
  = (Raise (ValueError (no_file_found_msg "069abc")),
     [] ++ [lookup_request "https://example.my.salesforce.com" ∅ "069abc"]).
Proof.
  apply (C6_no_record_not_found no_record_env
           "https://example.my.salesforce.com" ∅ "069abc" []
           (reply 200 "OK" (JsonObject (Some []) None None "{'records': []}"))
           (JsonObject (Some []) None None "{'records': []}"));
    reflexivity.
Defined.

(** ** The retriever *)

(** C7, as the code has it.  For a response of the blob endpoint with a
    status from 400 to 599, the retriever raises [HTTPError] for that
    status, with a message that starts with the status, and yields no
    document. *)
Theorem C7_error_status_raises (E : env) (download_url : string)
    (headers : gmap string string) (tr : list request) (r : response) :
  http E (download_request download_url headers) = Ok r ->
  400 <= status_code r < 600 ->
  exists msg,
    retrieve E download_url headers tr
    = (Raise (HTTPError msg (status_code r)),
       tr ++ [download_request download_url headers])
    /\ Py.startswith msg (Py.str_of_int (status_code r)) = true.
Proof.
  intros Hhttp Hstatus.
  unfold retrieve, bind, requests_get, send, lift.
  fold (download_request download_url headers). rewrite Hhttp.
  unfold raise_for_status.
  destruct (Z.ltb_spec (status_code r) 500) as [Hlt|Hge].
  - replace (400 <=? status_code r) with true by (symmetry; apply Z.leb_le; lia).
    cbn [andb]. eexists. split; [reflexivity | apply startswith_self_app].
  - rewrite andb_false_r.
    replace (500 <=? status_code r) with true by (symmetry; apply Z.leb_le; lia).
    replace (status_code r <? 600) with true by (symmetry; apply Z.ltb_lt; lia).
    cbn [andb]. eexists. split; [reflexivity | apply startswith_self_app].
Qed.

Lemma C7_witness :
  exists msg,
    retrieve not_found_env "https://example.my.salesforce.com/b" ∅ []
    = (Raise (HTTPError msg 404),
       [] ++ [download_request "https://example.my.salesforce.com/b" ∅])
    /\ Py.startswith msg (Py.str_of_int 404) = true.
Proof.
  apply (C7_error_status_raises not_found_env
           "https://example.my.salesforce.com/b" ∅ []
           (reply 404 "Not Found" sample_json)); [reflexivity | simpl; lia].
Defined.

(** C7 as stated fails for a status that is neither 2xx nor 4xx or 5xx: a
    response with status 304 raises nothing, and its body is returned as
    the document. *)
Lemma C7_counterexample :
  http not_modified_env (download_request "https://example.my.salesforce.com/b" ∅)
  = Ok (reply 304 "Not Modified" sample_json)
  /\ ~ (200 <= 304 < 300)
  /\ retrieve not_modified_env "https://example.my.salesforce.com/b" ∅ []
     = (Ok (Py.encode_utf8 "PK"),
        [download_request "https://example.my.salesforce.com/b" ∅])
  /\ fst (Simple.salesforce_download_file not_modified_env
            (Simple.Input "068abc") [])
     = Ok (Py.encode_utf8 "PK").
Proof.
  split; [reflexivity|]. split; [lia|]. split; reflexivity.
Qed.

(** ** The template rewriter inside the handlers *)

Lemma modify_pptx_template_fails (E : env) (file_content : list Byte.byte)
    (company_name tier : string) (e : exn) (tr : list request) :
  rewriter_fails E file_content company_name tier e ->
  modify_pptx_template E file_content company_name tier tr = (Raise e, tr).
Proof.
  unfold modify_pptx_template, try_except, bind, lift, raise.
  intros [H | (prs & H & Hsave)]; rewrite H; [reflexivity|].
  now rewrite Hsave.
Qed.

(** C8.  When parsing the downloaded bytes or serializing the rewritten
    document fails with an error [e], [modify_pptx_template] raises that
    same error (the failure that the specification calls TemplateError), and
    a handler that had downloaded [file_content] returns the text of the
    error, beginning with "Error processing file", not [file_content]. *)
Theorem C8_rewriter_failure_aborts (E : env) (file_content : list Byte.byte)
    (company_name tier : string) (e : exn) :
  rewriter_fails E file_content (Py.strip company_name) (Py.strip tier) e ->
  (forall tr,
     modify_pptx_template E file_content (Py.strip company_name)
       (Py.strip tier) tr = (Raise e, tr))
  /\ (forall file_id creds resolved tr tr1 tr2,
        String.eqb (Py.strip file_id) EmptyString = false ->
        oauth2_auth_code E SALESFORCE_APP_ID = Ok creds ->
        resolve E (Py.rstrip (url creds) "/") (auth_headers creds)
          (Py.strip file_id) tr = (Ok resolved, tr1) ->
        retrieve E (fst resolved) (auth_headers creds) tr1
        = (Ok file_content, tr2) ->
        let error_text :=
          Py.encode_utf8 ("Error processing file from Salesforce: "
                          +:+ str_exn e) in
        begins_with "Error processing file" error_text
        /\ Replace.salesforce_download_file E
             (Replace.Input file_id company_name tier) tr
           = (Ok error_text, tr2)
        /\ forall upload_back title,
             Upload.salesforce_download_file E
               (Upload.Input file_id company_name tier upload_back title) tr
             = (Ok error_text, tr2)).
Proof.
  intros Hfails. split.
  - intros tr. now apply modify_pptx_template_fails.
  - intros file_id creds resolved tr tr1 tr2 Hid Hcreds Hresolve Hretrieve
      error_text.
    split; [exact (begins_with_app "Error processing file"
                     " from Salesforce: " (str_exn e))|].
    split; [|intros upload_back title].
    + unfold Replace.salesforce_download_file, Replace.try_block, try_except.
      cbn [Replace.file_id Replace.company_name Replace.tier].
      rewrite Hid. unfold bind at 1, lift at 1. rewrite Hcreds.
      unfold bind at 1. rewrite Hresolve.
      unfold bind at 1. rewrite Hretrieve.
      unfold bind at 1.
      rewrite (modify_pptx_template_fails _ _ _ _ _ _ Hfails). reflexivity.
    + unfold Upload.salesforce_download_file, Upload.try_block, try_except.
      cbn [Upload.file_id Upload.company_name Upload.tier].
      rewrite Hid. unfold bind at 1, lift at 1. rewrite Hcreds.
      unfold bind at 1. rewrite Hresolve.
      unfold bind at 1. rewrite Hretrieve.
      unfold bind at 1.
      rewrite (modify_pptx_template_fails _ _ _ _ _ _ Hfails). reflexivity.
Qed.

Lemma C8_witness :
  Replace.salesforce_download_file bad_template_env
    (Replace.Input "00Pabc" "Acme" "Gold") []
  = (Ok (Py.encode_utf8
           "Error processing file from Salesforce: File is not a zip file"),
     [download_request
        "https://example.my.salesforce.com/services/data/v58.0/sobjects/Attachment/00Pabc/Body"
        (auth_headers sample_credentials)]).
Proof.
  refine (proj1 (proj2 (proj2 (C8_rewriter_failure_aborts bad_template_env
            (Py.encode_utf8 "PK") "Acme" "Gold"
            (OtherException "File is not a zip file") _)
          "00Pabc" sample_credentials
          ("https://example.my.salesforce.com/services/data/v58.0/sobjects/Attachment/00Pabc/Body", None)
          [] [] _ _ _ _ _))).
  - left. reflexivity.
  - reflexivity.
  - reflexivity.
  - reflexivity.
  - reflexivity.
Defined.

(** ** The requests that a computation sends *)

Lemma sends_ret {A} (Q : request -> Prop) (a : A) : sends Q (ret a).
Proof. intros tr. exists []. now rewrite app_nil_r. Qed.

Lemma sends_raise {A} (Q : request -> Prop) (e : exn) : sends Q (@raise A e).
Proof. intros tr. exists []. now rewrite app_nil_r. Qed.

Lemma sends_lift {A} (Q : request -> Prop) (r : result A) : sends Q (lift r).
Proof. intros tr. exists []. now rewrite app_nil_r. Qed.

Lemma sends_send (Q : request -> Prop) (E : env) (rq : request) :
  Q rq -> sends Q (send E rq).
Proof. intros H tr. exists [rq]. split; [reflexivity | now constructor]. Qed.

(** The continuation may use that the first computation returned. *)
Lemma sends_bind {A B} (Q : request -> Prop) (c : M A) (k : A -> M B) :
  sends Q c ->
  (forall a tr tr', c tr = (Ok a, tr') -> sends Q (k a)) ->
  sends Q (bind c k).
Proof.
  intros Hc Hk tr. unfold bind.
  destruct (Hc tr) as (ext & Htr & Hext).
  destruct (c tr) as [[a|e] tr'] eqn:Hrun; cbn [snd] in Htr; subst tr'.
  - destruct (Hk a tr _ Hrun (tr ++ ext)) as (ext' & -> & Hext').
    exists (ext ++ ext'). rewrite app_assoc. split; [reflexivity|].
    now apply Forall_app.
  - exists ext. now split.
Qed.

Lemma sends_try_except {A} (Q : request -> Prop) (c : M A) (h : exn -> M A) :
  sends Q c -> (forall e, sends Q (h e)) -> sends Q (try_except c h).
Proof.
  intros Hc Hh tr. unfold try_except.
  destruct (Hc tr) as (ext & Htr & Hext).
  destruct (c tr) as [[a|e] tr']; cbn [snd] in Htr; subst tr'.
  - exists ext. now split.
  - destruct (Hh e (tr ++ ext)) as (ext' & -> & Hext').
    exists (ext ++ ext'). rewrite app_assoc. split; [reflexivity|].
    now apply Forall_app.
Qed.

Ltac sends_step :=
  first
    [ apply sends_ret
    | apply sends_raise
    | apply sends_lift
    | apply sends_send
    | apply sends_try_except; [|intros ?]
    | apply sends_bind; [|intros ? ? ? ?]
    | match goal with
      | |- sends _ (match ?x with _ => _ end) => destruct x
      end ].

Section GetsOnly.

Variable Q : request -> Prop.
Hypothesis Q_get : forall rq, req_method rq = GET -> Q rq.

Lemma resolve_sends (E : env) (base_url : string)
    (headers : gmap string string) (file_id : string) :
  sends Q (resolve E base_url headers file_id).
Proof.
  unfold resolve, requests_get. cbv zeta.
  repeat sends_step; now apply Q_get.
Qed.

Lemma retrieve_sends (E : env) (download_url : string)
    (headers : gmap string string) :
  sends Q (retrieve E download_url headers).
Proof.
  unfold retrieve, requests_get.
  repeat sends_step; now apply Q_get.
Qed.

Lemma modify_pptx_template_sends (E : env) (file_content : list Byte.byte)
    (company_name tier : string) :
  sends Q (modify_pptx_template E file_content company_name tier).
Proof. unfold modify_pptx_template. cbv zeta. repeat sends_step. Qed.

(** The uploader sends the creation request, and after it a GET. *)
Lemma upload_file_to_salesforce_sends (E : env) (base_url access_token : string)
    (file_content : list Byte.byte) (title : string) :
  Q (Request POST
       (base_url +:+ "/services/data/" +:+ SALESFORCE_API_VERSION
        +:+ "/sobjects/ContentVersion")
       {[ "Authorization" := "Bearer " +:+ access_token;
          "Content-Type" := "application/json" ]}
       ∅ (Some (creation_body title file_content)) REQUEST_TIMEOUT false) ->
  sends Q (Upload.upload_file_to_salesforce E base_url access_token
             file_content title None).
Proof.
  intros Hpost.
  unfold Upload.upload_file_to_salesforce, requests_get, requests_post.
  cbv zeta.
  repeat sends_step; solve [exact Hpost | now apply Q_get].
Qed.

End GetsOnly.

(** *** The title of the upload *)

Lemma string_map_ext (f g : ascii -> ascii) (s : string) :
  (forall c, f c = g c) -> string_map f s = string_map g s.
Proof.
  intros H. induction s as [|c s IH]; [reflexivity|].
  cbn [string_map]. now rewrite H, IH.
Qed.

Lemma string_map_map (f g : ascii -> ascii) (s : string) :
  string_map f (string_map g s) = string_map (fun c => f (g c)) s.
Proof.
  induction s as [|c s IH]; [reflexivity|].
  cbn [string_map]. now rewrite IH.
Qed.

(** Replacing a one-character text by a one-character text is a map over the
    characters. *)
Lemma replace_char (a b : ascii) (s : string) :
  Py.replace s (String a EmptyString) (String b EmptyString)
  = string_map (fun c => if Ascii.eqb a c then b else c) s.
Proof.
  unfold Py.replace. induction s as [|c s IH]; [reflexivity|].
  cbn [Py.replace_from Py.startswith String.length Nat.pred string_map].
  rewrite andb_true_r.
  destruct (Ascii.eqb a c); now rewrite IH.
Qed.

Lemma safe_company_map (company_name : string) :
  Py.replace (Py.replace company_name " " "_") "/" "_"
  = string_map safe_char company_name.
Proof.
  rewrite !replace_char, string_map_map. apply string_map_ext. intros c.
  unfold safe_char. rewrite (Ascii.eqb_sym c " "), (Ascii.eqb_sym c "/").
  destruct (Ascii.eqb " " c) eqn:Hs; [reflexivity|].
  now destruct (Ascii.eqb "/" c).
Qed.

Lemma dynamic_title_uploaded (input_data : Upload.SalesforceFileInput) :
  Upload.dynamic_title (Py.strip (Upload.title input_data))
    (Py.strip (Upload.company_name input_data))
    (Py.strip (Upload.tier input_data))
  = uploaded_title input_data.
Proof.
  unfold Upload.dynamic_title, uploaded_title, Upload.default_title.
  now rewrite safe_company_map.
Qed.

Lemma upload_try_block_sends (E : env) (input_data : Upload.SalesforceFileInput) :
  sends (creation_request_of E input_data) (Upload.try_block E input_data).
Proof.
  assert (Hget : forall rq, req_method rq = GET ->
                            creation_request_of E input_data rq).
  { intros rq Hrq Hpost. congruence. }
  unfold Upload.try_block. cbv zeta.
  destruct (String.eqb _ _); [apply sends_raise|].
  apply sends_bind; [apply sends_lift|]. intros creds tr0 tr0' Hcreds.
  apply sends_bind; [now apply resolve_sends|]. intros resolved _ _ _.
  apply sends_bind; [now apply retrieve_sends|]. intros file_content _ _ _.
  apply sends_bind; [now apply modify_pptx_template_sends|].
  intros content tr tr' Hmodify.
  apply sends_bind; [|intros; apply sends_ret].
  destruct (Upload.upload_back_to_salesforce input_data) eqn:Hback;
    [|apply sends_ret].
  apply sends_bind; [|intros; apply sends_ret].
  apply upload_file_to_salesforce_sends; [exact Hget|].
  intros _. split; [exact Hback|].
  exists creds, file_content, content, tr, tr'.
  unfold lift in Hcreds. injection Hcreds as Hcreds _.
  rewrite dynamic_title_uploaded. now repeat split.
Qed.

Lemma upload_handler_sends (E : env) (input_data : Upload.SalesforceFileInput) :
  sends (creation_request_of E input_data)
    (Upload.salesforce_download_file E input_data).
Proof.
  unfold Upload.salesforce_download_file.
  apply sends_try_except; [apply upload_try_block_sends|].
  intros e. apply sends_ret.
Qed.

Lemma upload_handler_request (E : env) (input_data : Upload.SalesforceFileInput)
    (rq : request) :
  In rq (snd (Upload.salesforce_download_file E input_data [])) ->
  creation_request_of E input_data rq.
Proof.
  destruct (upload_handler_sends E input_data []) as (ext & -> & Hext).
  cbn [app]. intros Hin. rewrite Forall_forall in Hext.
  apply Hext. now apply list_elem_of_In.
Qed.

(** *** When the handler returns the document *)

Lemma bind_ok {A B} (c : M A) (k : A -> M B) (tr tr' : list request) (b : B) :
  bind c k tr = (Ok b, tr') ->
  exists a tr1, c tr = (Ok a, tr1) /\ k a tr1 = (Ok b, tr').
Proof.
  unfold bind. destruct (c tr) as [[a|e] tr1]; [eauto | discriminate].
Qed.

Lemma try_send_trace {A} (E : env) (rq : request) (k : response -> M A)
    (tr : list request) :
  (forall r, sends (fun _ => True) (k r)) ->
  exists rest,
    snd (try_except (bind (send E rq) k) (fun e => raise e) tr)
    = tr ++ rq :: rest.
Proof.
  intros Hk. unfold try_except, bind, send.
  destruct (http E rq) as [r|e].
  - destruct (Hk r (tr ++ [rq])) as (ext & Hext & _).
    destruct (k r (tr ++ [rq])) as [[a|e] tr']; cbn [snd] in Hext; subst tr';
      exists ext; unfold raise; cbn [snd]; now rewrite <- app_assoc.
  - exists []. reflexivity.
Qed.

Lemma upload_file_to_salesforce_trace (E : env) (base_url access_token : string)
    (file_content : list Byte.byte) (title : string) (tr : list request) :
  exists rq rest,
    snd (Upload.upload_file_to_salesforce E base_url access_token
           file_content title None tr) = tr ++ rq :: rest
    /\ req_method rq = POST
    /\ req_json rq = Some (creation_body title file_content).
Proof.
  unfold Upload.upload_file_to_salesforce, requests_post. cbv zeta.
  match goal with
  | |- context [try_except (bind (send E ?post) ?k)] =>
      destruct (try_send_trace E post k tr) as (rest & Hrest);
      [|exists post, rest; repeat split; exact Hrest]
  end.
  intros r. unfold requests_get. repeat sends_step; exact I.
Qed.

(** C9.  Every creation request (POST) of the uploading handler is sent
    with upload enabled, goes to the creation endpoint, and has as its body
    the object of four entries: the title of the upload, the client path
    (the title and ".pptx"), the base64 text of a document that the rewriter
    returned, and the major-version flag set; the body has no entry for the
    identifier of an existing container.  When the handler returns the
    document with upload enabled, it has sent such a request for that
    document. *)
Theorem C9_creation_request (E : env) (input_data : Upload.SalesforceFileInput) :
  (forall rq,
     In rq (snd (Upload.salesforce_download_file E input_data [])) ->
     req_method rq = POST ->
     Upload.upload_back_to_salesforce input_data = true
     /\ exists (creds : credentials) (title : string)
          (file_content content : list Byte.byte) (tr tr' : list request),
          oauth2_auth_code E SALESFORCE_APP_ID = Ok creds
          /\ req_url rq
             = Py.rstrip (url creds) "/"
               +:+ "/services/data/v58.0/sobjects/ContentVersion"
          /\ modify_pptx_template E file_content
               (Py.strip (Upload.company_name input_data))
               (Py.strip (Upload.tier input_data)) tr = (Ok content, tr')
          /\ req_json rq
             = Some {[ "Title" := JStr title;
                       "PathOnClient" := JStr (title +:+ ".pptx");
                       "VersionData" := JStr (Py.b64encode content);
                       "IsMajorVersion" := JBool true ]}
          /\ (req_json rq ≫= (fun body => body !! "ContentDocumentId")) = None)
  /\ (forall document tr,
        Upload.upload_back_to_salesforce input_data = true ->
        Upload.try_block E input_data [] = (Ok document, tr) ->
        exists rq,
          In rq tr /\ req_method rq = POST
          /\ req_json rq
             = Some (creation_body (uploaded_title input_data) document)).
Proof.
  split.
  - intros rq Hin Hpost.
    destruct (upload_handler_request E input_data rq Hin Hpost)
      as (Hback & creds & file_content & content & tr & tr' & Hcreds
          & Hmodify & Hurl & Hjson).
    split; [exact Hback|].
    exists creds, (uploaded_title input_data), file_content, content, tr, tr'.
    repeat split; try assumption.
    rewrite Hjson. reflexivity.
  - intros document tr Hback. unfold Upload.try_block. cbv zeta.
    destruct (String.eqb _ _); [discriminate|]. intros Hrun.
    apply bind_ok in Hrun as (creds & tr1 & _ & Hrun).
    apply bind_ok in Hrun as (resolved & tr2 & _ & Hrun).
    apply bind_ok in Hrun as (file_content & tr3 & _ & Hrun).
    apply bind_ok in Hrun as (content & tr4 & _ & Hrun).
    apply bind_ok in Hrun as ([] & tr5 & Hupload & Hrun).
    injection Hrun as <- <-.
    rewrite Hback in Hupload.
    apply bind_ok in Hupload as (details & tr6 & Hupload & Hrun).
    injection Hrun as <-.
    destruct (upload_file_to_salesforce_trace E
                (Py.rstrip (url creds) "/") (access_token creds) content
                (Upload.dynamic_title (Py.strip (Upload.title input_data))
                   (Py.strip (Upload.company_name input_data))
                   (Py.strip (Upload.tier input_data))) tr4)
      as (rq & rest & Htrace & Hpost & Hjson).
    rewrite Hupload in Htrace. cbn [snd] in Htrace. subst tr6.
    exists rq. rewrite <- dynamic_title_uploaded.
    split; [|now split].
    apply in_or_app. right. now left.
Qed.

Lemma C9_witness :
  Upload.upload_back_to_salesforce
    (Upload.Input "068abc" "Acme Corporation" "Gold" true "Certificate") = true
  /\ exists (creds : credentials) (title : string)
       (file_content content : list Byte.byte) (tr tr' : list request),
       oauth2_auth_code sample_env SALESFORCE_APP_ID = Ok creds
       /\ req_url (sample_creation_request "Certificate" sample_document)
          = Py.rstrip (url creds) "/"
            +:+ "/services/data/v58.0/sobjects/ContentVersion"
       /\ modify_pptx_template sample_env file_content
            (Py.strip "Acme Corporation") (Py.strip "Gold") tr = (Ok content, tr')
       /\ req_json (sample_creation_request "Certificate" sample_document)
          = Some {[ "Title" := JStr title;
                    "PathOnClient" := JStr (title +:+ ".pptx");
                    "VersionData" := JStr (Py.b64encode content);
                    "IsMajorVersion" := JBool true ]}
       /\ (req_json (sample_creation_request "Certificate" sample_document)
           ≫= (fun body => body !! "ContentDocumentId")) = None.
Proof.
  apply (proj1 (C9_creation_request sample_env
                  (Upload.Input "068abc" "Acme Corporation" "Gold" true
                     "Certificate"))
           (sample_creation_request "Certificate" sample_document)).
  - vm_compute. right. left. reflexivity.
  - reflexivity.
Defined.

(** C10, as the code has it.  The title, the company name and the tier of
    the request are first trimmed of surrounding whitespace.  When the
    trimmed title is the default "Partner_Plus_Certificate", every creation
    request carries the title "Partner_Plus_Certificate_", the trimmed tier,
    "_" and the trimmed company name with every space and every slash turned
    into an underscore; otherwise it carries the trimmed title. *)
Theorem C10_upload_title (E : env) (input_data : Upload.SalesforceFileInput)
    (rq : request) :
  In rq (snd (Upload.salesforce_download_file E input_data [])) ->
  req_method rq = POST ->
  exists used_title,
    (req_json rq ≫= (fun body => body !! "Title")) = Some (JStr used_title)
    /\ (Py.strip (Upload.title input_data) = "Partner_Plus_Certificate" ->
        used_title
        = "Partner_Plus_Certificate_" +:+ Py.strip (Upload.tier input_data)
          +:+ "_"
          +:+ string_map safe_char (Py.strip (Upload.company_name input_data)))
    /\ (Py.strip (Upload.title input_data) <> "Partner_Plus_Certificate" ->
        used_title = Py.strip (Upload.title input_data)).
Proof.
  intros Hin Hpost.
  destruct (upload_handler_request E input_data rq Hin Hpost)
    as (_ & creds & file_content & content & tr & tr' & _ & _ & _ & Hjson).
  exists (uploaded_title input_data). rewrite Hjson.
  split; [reflexivity|]. unfold uploaded_title.
  destruct (String.eqb_spec (Py.strip (Upload.title input_data))
              "Partner_Plus_Certificate") as [Heq|Hne].
  - split; [reflexivity | congruence].
  - split; [congruence | reflexivity].
Qed.

Lemma C10_witness :
  exists used_title,
    (req_json (sample_creation_request
                 "Partner_Plus_Certificate_Gold_Acme_Corporation"
                 sample_document)
     ≫= (fun body => body !! "Title")) = Some (JStr used_title)
    /\ (Py.strip "Partner_Plus_Certificate" = "Partner_Plus_Certificate" ->
        used_title
        = "Partner_Plus_Certificate_" +:+ Py.strip " Gold" +:+ "_"
          +:+ string_map safe_char (Py.strip "Acme Corporation "))
    /\ (Py.strip "Partner_Plus_Certificate" <> "Partner_Plus_Certificate" ->
        used_title = Py.strip "Partner_Plus_Certificate").
Proof.
  apply (C10_upload_title sample_env
           (Upload.Input "068abc" "Acme Corporation " " Gold" true
              "Partner_Plus_Certificate")
           (sample_creation_request
              "Partner_Plus_Certificate_Gold_Acme_Corporation"
              sample_document)).
  - vm_compute. right. left. reflexivity.
  - reflexivity.
Defined.

(** C10 as stated fails for a title with surrounding whitespace: the title
    "Partner_Plus_Certificate " (with a space at its end) is not the
    default, and yet the upload does not carry it verbatim. *)
Lemma C10_counterexample :
  "Partner_Plus_Certificate " <> "Partner_Plus_Certificate"
  /\ map (fun rq => req_json rq ≫= (fun body => body !! "Title"))
        (posts (snd (Upload.salesforce_download_file sample_env
                       (Upload.Input "068abc" "Acme Corporation" "Gold" true
                          "Partner_Plus_Certificate ") [])))
     = [Some (JStr "Partner_Plus_Certificate_Gold_Acme_Corporation")].
Proof.
  split; [discriminate | vm_compute; reflexivity].
Qed.

(** ** The rewriting of the runs *)

Lemma certificate_run_in_shape (s : shape) (ps : list paragraph)
    (i j : nat) (p : paragraph) :
  text_frame s = Some ps ->
  ps !! i = Some p ->
  p !! j = Some (Run certificate_run_text) ->
  Py.str_in "Valid through" (text_frame_text ps) = true
  /\ exists ps' p',
       text_frame (modify_shape "Acme" "Gold" "31 December 2025" s) = Some ps'
       /\ ps' !! i = Some p'
       /\ p' !! j = Some (Run certificate_run_expected).
Proof.
  intros Hs Hi Hj. split.
  - apply take_drop_middle in Hi, Hj. rewrite <- Hi, <- Hj.
    now apply str_in_text_frame_text.
  - unfold modify_shape. rewrite Hs.
    destruct (modify_shape_visit "Acme" "Gold" "31 December 2025"
                ps i j p certificate_run_text Hi Hj) as (q & Hq & Hrun).
    eexists _, q. split; [reflexivity|]. split; [exact Hq|].
    rewrite Hrun. do 2 f_equal.
    unfold rewrite_run.
    change (replace_placeholders "Acme" "Gold" certificate_run_text)
      with "Certificate for Acme, Tier: Gold. Valid through 31 December 2019.".
    unfold shape_at_visit. rewrite str_in_text_frame_text by reflexivity.
    reflexivity.
Qed.

(** C2.  Running the template rewriter, [modify_pptx_template], in the year
    2025 with the organization name "Acme" and the tier "Gold" on a file
    that parses to a document: the rewriter reads the year off the clock,
    hands to the serializer the document rewritten by the loops with the
    date text "31 December 2025", and returns what the serializer gives.  In
    that document a run that read "Certificate for <Company>, Tier: <Tier>.
    Valid through 31 December 2019." reads "Certificate for Acme, Tier:
    Gold. Valid through 31 December 2025.", at whatever place of whatever
    shape of whatever slide it stands: the text of such a shape contains
    "Valid through", since the run does. *)
Theorem C2_certificate_run (E : env) (file_content : list Byte.byte)
    (tr : list request) (prs : presentation) (k h : nat) (sl : slide)
    (s : shape) (ps : list paragraph) (i j : nat) (p : paragraph) :
  now_year E = 2025 ->
  Presentation E file_content = Ok prs ->
  prs !! k = Some sl ->
  sl !! h = Some s ->
  text_frame s = Some ps ->
  ps !! i = Some p ->
  p !! j = Some (Run certificate_run_text) ->
  Py.str_in "Valid through" (text_frame_text ps) = true
  /\ modify_pptx_template E file_content "Acme" "Gold" tr
     = (save E (modify_slides "Acme" "Gold" "31 December 2025" prs), tr)
  /\ exists sl' s' ps' p',
       modify_slides "Acme" "Gold" "31 December 2025" prs !! k = Some sl'
       /\ sl' !! h = Some s'
       /\ text_frame s' = Some ps'
       /\ ps' !! i = Some p'
       /\ p' !! j = Some (Run certificate_run_expected).
Proof.
  intros Hyear Hparse Hk Hh Hs Hi Hj.
  destruct (certificate_run_in_shape s ps i j p Hs Hi Hj)
    as (Hshape & ps' & p' & Hs' & Hi' & Hj').
  split; [exact Hshape|]. split.
  - unfold modify_pptx_template, try_except, bind, lift, raise.
    rewrite Hparse, Hyear. cbv zeta.
    change (valid_through 2025) with "31 December 2025".
    now destruct (save E _).
  - exists (map (modify_shape "Acme" "Gold" "31 December 2025") sl),
      (modify_shape "Acme" "Gold" "31 December 2025" s), ps', p'.
    unfold modify_slides. rewrite !list_lookup_fmap, Hk, Hh.
    repeat split; assumption.
Qed.

Lemma C2_witness :
  Py.str_in "Valid through" (text_frame_text [[Run certificate_run_text]])
  = true
  /\ modify_pptx_template sample_env (Py.encode_utf8 "PK") "Acme" "Gold" []
     = (save sample_env
          (modify_slides "Acme" "Gold" "31 December 2025" sample_presentation),
        [])
  /\ exists sl' s' ps' p',
       modify_slides "Acme" "Gold" "31 December 2025" sample_presentation
         !! 0%nat = Some sl'
       /\ sl' !! 0%nat = Some s'
       /\ text_frame s' = Some ps'
       /\ ps' !! 0%nat = Some p'
       /\ p' !! 0%nat = Some (Run certificate_run_expected).
Proof.
  apply (C2_certificate_run sample_env (Py.encode_utf8 "PK") []
           sample_presentation 0 0
           [Shape (Some [[Run certificate_run_text]]); Shape None]
           (Shape (Some [[Run certificate_run_text]]))
           [[Run certificate_run_text]] 0 0 [Run certificate_run_text]);
    reflexivity.
Defined.

(** *** Runs that the date rewrite passes by *)

Lemma replace_placeholders_keeps_date (company_name tier t : string) :
  Py.str_in "31 December 2019" t = true ->
  Py.str_in "31 December 2019" (replace_placeholders company_name tier t) = true.
Proof.
  intros H. unfold replace_placeholders.
  assert (H1 : Py.str_in "31 December 2019"
                 (if Py.str_in "<Company>" t
                  then assigned_text (Py.replace t "<Company>" company_name)
                  else t) = true).
  { destruct (Py.str_in "<Company>" t); [|exact H].
    apply str_in_assigned_text; [reflexivity|].
    now apply (replace_keeps "<" "Company>" company_name "3" "1 December 2019"). }
  destruct (Py.str_in "<Tier>" _); [|exact H1].
  apply str_in_assigned_text; [reflexivity|].
  now apply (replace_keeps "<" "Tier>" tier "3" "1 December 2019").
Qed.

(** C4, as the code has it.  [shape.text] is read when the loops reach the
    run, after the placeholders of that run and of the runs before it were
    replaced.  If the text read then does not contain "Valid through", the
    run keeps its date: it ends as the two placeholder assignments left it
    ([replace_placeholders]: the placeholders replaced, and the control
    characters of an assigned text written out as the document library
    does), and "31 December 2019" still stands in it. *)
Theorem C4_date_kept (company_name tier valid_through_date : string)
    (ps : list paragraph) (i j : nat) (p : paragraph) (t : string) :
  ps !! i = Some p ->
  p !! j = Some (Run t) ->
  Py.str_in "31 December 2019" t = true ->
  let out := paragraph_loop company_name tier valid_through_date [] ps in
  let t2 := replace_placeholders company_name tier t in
  Py.str_in "Valid through" (text_frame_text (shape_at_visit ps out i j t2))
  = false ->
  exists q,
    out !! i = Some q /\ q !! j = Some (Run t2)
    /\ Py.str_in "31 December 2019" t2 = true.
Proof.
  intros Hi Hj Hdate out t2 Hshape.
  destruct (modify_shape_visit company_name tier valid_through_date
              ps i j p t Hi Hj) as (q & Hq & Hrun).
  exists q. split; [exact Hq|]. split.
  - rewrite Hrun. unfold rewrite_run. fold t2. fold out.
    now rewrite Hshape, andb_false_r.
  - now apply replace_placeholders_keeps_date.
Qed.

Lemma C4_witness :
  exists q,
    paragraph_loop "Acme" "Gold" (valid_through 2025) []
      [[Run "Issued to <Company> on "; Run "31 December 2019"]] !! 0%nat
    = Some q
    /\ q !! 1%nat = Some (Run (replace_placeholders "Acme" "Gold" "31 December 2019"))
    /\ Py.str_in "31 December 2019"
         (replace_placeholders "Acme" "Gold" "31 December 2019") = true.
Proof.
  apply (C4_date_kept "Acme" "Gold" (valid_through 2025)
           [[Run "Issued to <Company> on "; Run "31 December 2019"]] 0 1
           [Run "Issued to <Company> on "; Run "31 December 2019"]
           "31 December 2019"); reflexivity.
Defined.

(** C4 as stated fails when a substitution value brings "Valid through" into
    the shape: the text of the shape below does not contain "Valid through",
    its run contains "31 December 2019", and with the organization name
    "Valid through" the date of the run is rewritten. *)
Lemma C4_counterexample :
  Py.str_in "31 December 2019" "<Company> 31 December 2019" = true
  /\ Py.str_in "Valid through"
       (text_frame_text [[Run "<Company> 31 December 2019"]]) = false
  /\ modify_shape "Valid through" "Gold" (valid_through 2025)
       (Shape (Some [[Run "<Company> 31 December 2019"]]))
     = Shape (Some [[Run "Valid through 31 December 2025"]])
  /\ Py.str_in "31 December 2019" "Valid through 31 December 2025" = false.
Proof. repeat split. Qed.

(** *** Documents that the rewriter leaves as they are *)

Lemma settled_run_rewrite (company_name tier valid_through_date : string)
    (shape_text : string -> string) (t : string) :
  settled_run (shape_text t) t = true ->
  rewrite_run company_name tier valid_through_date shape_text t = t.
Proof.
  unfold settled_run, rewrite_run, replace_placeholders. intros H.
  apply andb_true_iff in H as [H Hdate].
  apply andb_true_iff in H as [Hc Ht].
  apply negb_true_iff in Hc, Ht, Hdate.
  rewrite Hc, Ht.
  destruct (Py.str_in "Valid through" (shape_text t)); cbn [andb] in *.
  - apply orb_false_iff in Hdate as [Hdate Hplain].
    rewrite (re_sub_no_match _ _ _ Hdate).
    destruct (Py.str_in "31 December" t); [|reflexivity].
    cbn [andb] in *. now apply assigned_text_plain.
  - now rewrite andb_false_r.
Qed.

Lemma run_loop_settled (company_name tier valid_through_date : string)
    (before after : list paragraph) (todo done : paragraph) :
  forallb (settled_item
             (text_frame_text (before ++ (done ++ todo) :: after))) todo = true ->
  run_loop company_name tier valid_through_date before done todo after
  = done ++ todo.
Proof.
  revert done. induction todo as [|it rest IH]; intros done H.
  - now rewrite app_nil_r.
  - cbn [forallb] in H. apply andb_true_iff in H as [Hit Hrest].
    replace (done ++ it :: rest) with ((done ++ [it]) ++ rest) in *
      by now rewrite <- app_assoc.
    destruct it as [t| |t]; cbn [run_loop]; try now apply IH.
    cbn [settled_item] in Hit.
    rewrite settled_run_rewrite.
    + now apply IH.
    + now rewrite <- app_assoc in Hit.
Qed.

Lemma paragraph_loop_settled (company_name tier valid_through_date : string)
    (todo before : list paragraph) :
  settled_paragraphs (text_frame_text (before ++ todo)) todo = true ->
  paragraph_loop company_name tier valid_through_date before todo
  = before ++ todo.
Proof.
  unfold settled_paragraphs.
  revert before. induction todo as [|p after IH]; intros before H.
  - now rewrite app_nil_r.
  - cbn [forallb] in H. apply andb_true_iff in H as [Hp Hafter].
    cbn [paragraph_loop]. rewrite run_loop_settled by exact Hp.
    cbn [app]. rewrite IH; rewrite <- app_assoc; [reflexivity | exact Hafter].
Qed.

Lemma modify_shape_settled (company_name tier valid_through_date : string)
    (s : shape) :
  settled_shape s = true ->
  modify_shape company_name tier valid_through_date s = s.
Proof.
  unfold settled_shape, modify_shape. destruct s as [[ps|]]; cbn; [|reflexivity].
  intros H. now rewrite paragraph_loop_settled.
Qed.

(** C3, as the code has it.  A document in which no run holds a placeholder
    token, and in which no run of a shape whose text contains "Valid
    through" holds a date of the form "31 December" and four digits, comes
    out of the loops as it went in, provided that a run which contains
    "31 December" in such a shape holds no control character that an
    assignment writes out: the loop body assigns to that run its own text
    (see [reassigned_run]). *)
Theorem C3_settled_document_unchanged
    (company_name tier valid_through_date : string) (prs : presentation) :
  settled prs = true ->
  modify_slides company_name tier valid_through_date prs = prs.
Proof.
  unfold settled, modify_slides.
  induction prs as [|sl prs IH]; [reflexivity|].
  cbn [forallb map]. intros H. apply andb_true_iff in H as [Hsl Hprs].
  rewrite (IH Hprs). f_equal.
  induction sl as [|s sl IHsl]; [reflexivity|].
  cbn [forallb map] in *. apply andb_true_iff in Hsl as [Hs Hsl].
  now rewrite (modify_shape_settled _ _ _ _ Hs), (IHsl Hsl).
Qed.

Lemma C3_witness :
  modify_slides "Acme" "Gold" (valid_through 2025)
    [[Shape (Some [[Run "Partner Plus"; LineBreak; Run "Issued 31 December 2019"]]);
      Shape None;
      Shape (Some [[Run "Valid through "]; [Run "31 December"]])]]
  = [[Shape (Some [[Run "Partner Plus"; LineBreak; Run "Issued 31 December 2019"]]);
      Shape None;
      Shape (Some [[Run "Valid through "]; [Run "31 December"]])]].
Proof.
  apply (C3_settled_document_unchanged "Acme" "Gold" (valid_through 2025)).
  reflexivity.
Defined.

(** C3 as stated fails on a run without placeholder tokens whose date is
    rewritten. *)
Lemma C3_counterexample :
  Py.str_in "<Company>" "Valid through 31 December 2019" = false
  /\ Py.str_in "<Tier>" "Valid through 31 December 2019" = false
  /\ modify_slides "Acme" "Gold" (valid_through 2025)
       [[Shape (Some [[Run "Valid through 31 December 2019"]])]]
     = [[Shape (Some [[Run "Valid through 31 December 2025"]])]]
  /\ "Valid through 31 December 2025" <> "Valid through 31 December 2019".
Proof. repeat split. discriminate. Qed.

(** * Further properties of the handlers *)

(** ** Identifiers and the resolver *)

Lemma startswith_3 (s : string) (a b c : ascii) :
  Py.startswith s (String a (String b (String c EmptyString))) = true ->
  exists rest, s = String a (String b (String c rest)).
Proof.
  destruct s as [|x [|y [|z rest]]]; cbn [Py.startswith];
    rewrite ?andb_false_r; try discriminate.
  intros H. apply andb_true_iff in H as [Ha H].
  apply andb_true_iff in H as [Hb H].
  apply andb_true_iff in H as [Hc _].
  apply Ascii.eqb_eq in Ha, Hb, Hc. subst. now exists rest.
Qed.

(** X1.  An identifier that is empty once trimmed is refused by each of the
    three handlers before the credentials are asked for and before any
    request is sent: the handler returns the text "... file_id cannot be
    empty" and leaves the trace as it was. *)
Theorem X1_blank_identifier_refused (E : env) (tr : list request)
    (file_id company_name tier title : string) (upload_back : bool) :
  Py.strip file_id = EmptyString ->
  Simple.salesforce_download_file E (Simple.Input file_id) tr
  = (Ok (Py.encode_utf8
           "Error downloading file from Salesforce: file_id cannot be empty"),
     tr)
  /\ Replace.salesforce_download_file E
       (Replace.Input file_id company_name tier) tr
     = (Ok (Py.encode_utf8
              "Error processing file from Salesforce: file_id cannot be empty"),
        tr)
  /\ Upload.salesforce_download_file E
       (Upload.Input file_id company_name tier upload_back title) tr
     = (Ok (Py.encode_utf8
              "Error processing file from Salesforce: file_id cannot be empty"),
        tr).
Proof.
  intros H.
  unfold Simple.salesforce_download_file, Simple.try_block,
    Replace.salesforce_download_file, Replace.try_block,
    Upload.salesforce_download_file, Upload.try_block, try_except.
  cbn [Simple.file_id Replace.file_id Upload.file_id].
  rewrite H. repeat split.
Qed.

Lemma X1_witness :
  Simple.salesforce_download_file not_found_env (Simple.Input "  ") []
  = (Ok (Py.encode_utf8
           "Error downloading file from Salesforce: file_id cannot be empty"),
     [])
  /\ Replace.salesforce_download_file not_found_env
       (Replace.Input "  " "Acme" "Gold") []
     = (Ok (Py.encode_utf8
              "Error processing file from Salesforce: file_id cannot be empty"),
        [])
  /\ Upload.salesforce_download_file not_found_env
       (Upload.Input "  " "Acme" "Gold" true "Certificate") []
     = (Ok (Py.encode_utf8
              "Error processing file from Salesforce: file_id cannot be empty"),
        []).
Proof.
  apply (X1_blank_identifier_refused not_found_env [] "  " "Acme" "Gold"
           "Certificate" true).
  reflexivity.
Defined.

Lemma simple_try_block_direct (E : env) (file_id : string)
    (creds : credentials) (download_url : string) (tr : list request) :
  String.eqb (Py.strip file_id) EmptyString = false ->
  oauth2_auth_code E SALESFORCE_APP_ID = Ok creds ->
  resolve E (Py.rstrip (url creds) "/") (auth_headers creds)
    (Py.strip file_id) tr = (Ok (download_url, None), tr) ->
  Simple.try_block E (Simple.Input file_id) tr
  = retrieve E download_url (auth_headers creds) tr.
Proof.
  intros Hid Hcreds Hresolve.
  unfold Simple.try_block. cbn [Simple.file_id]. rewrite Hid.
  unfold bind at 1, lift at 1. rewrite Hcreds.
  unfold bind at 1. rewrite Hresolve. cbn [fst]. unfold bind.
  destruct (retrieve E _ _ tr) as [[b|e] tr']; reflexivity.
Qed.

(** X2.  An identifier that, once trimmed, has the prefix 068 is resolved
    without a lookup: the resolver sends nothing and yields the version-data
    address of the identifier itself, and the download handler does exactly
    what the retriever does on that address. *)
Theorem X2_version_identifier_direct (E : env) (file_id : string)
    (creds : credentials) (base_url : string) (headers : gmap string string)
    (tr : list request) :
  Py.startswith (Py.strip file_id) "068" = true ->
  oauth2_auth_code E SALESFORCE_APP_ID = Ok creds ->
  resolve E base_url headers (Py.strip file_id) tr
  = (Ok (base_url +:+ "/services/data/v58.0/sobjects/ContentVersion/"
         +:+ Py.strip file_id +:+ "/VersionData", None), tr)
  /\ Simple.try_block E (Simple.Input file_id) tr
     = retrieve E
         (Py.rstrip (url creds) "/"
          +:+ "/services/data/v58.0/sobjects/ContentVersion/"
          +:+ Py.strip file_id +:+ "/VersionData")
         (auth_headers creds) tr.
Proof.
  intros H068 Hcreds.
  destruct (startswith_3 _ _ _ _ H068) as (rest & Hid).
  split.
  - rewrite Hid. reflexivity.
  - apply simple_try_block_direct; [now rewrite Hid | exact Hcreds |].
    rewrite Hid. reflexivity.
Qed.

Lemma X2_witness :
  resolve sample_env "https://example.my.salesforce.com" ∅
    (Py.strip " 068abc ") []
  = (Ok ("https://example.my.salesforce.com"
         +:+ "/services/data/v58.0/sobjects/ContentVersion/"
         +:+ Py.strip " 068abc " +:+ "/VersionData", None), [])
  /\ Simple.try_block sample_env (Simple.Input " 068abc ") []
     = retrieve sample_env
         (Py.rstrip (url sample_credentials) "/"
          +:+ "/services/data/v58.0/sobjects/ContentVersion/"
          +:+ Py.strip " 068abc " +:+ "/VersionData")
         (auth_headers sample_credentials) [].
Proof.
  apply (X2_version_identifier_direct sample_env " 068abc "
           sample_credentials "https://example.my.salesforce.com" ∅ []);
    reflexivity.
Defined.

(** X3.  An identifier that, once trimmed, has the prefix 00P is resolved
    without a lookup to the attachment-body address of the identifier, and
    the download handler does exactly what the retriever does on that
    address. *)
Theorem X3_attachment_identifier_direct (E : env) (file_id : string)
    (creds : credentials) (base_url : string) (headers : gmap string string)
    (tr : list request) :
  Py.startswith (Py.strip file_id) "00P" = true ->
  oauth2_auth_code E SALESFORCE_APP_ID = Ok creds ->
  resolve E base_url headers (Py.strip file_id) tr
  = (Ok (base_url +:+ "/services/data/v58.0/sobjects/Attachment/"
         +:+ Py.strip file_id +:+ "/Body", None), tr)
  /\ Simple.try_block E (Simple.Input file_id) tr
     = retrieve E
         (Py.rstrip (url creds) "/"
          +:+ "/services/data/v58.0/sobjects/Attachment/"
          +:+ Py.strip file_id +:+ "/Body")
         (auth_headers creds) tr.
Proof.
  intros H00P Hcreds.
  destruct (startswith_3 _ _ _ _ H00P) as (rest & Hid).
  split.
  - rewrite Hid. reflexivity.
  - apply simple_try_block_direct; [now rewrite Hid | exact Hcreds |].
    rewrite Hid. reflexivity.
Qed.

Lemma X3_witness :
  resolve sample_env "https://example.my.salesforce.com" ∅
    (Py.strip "00Pabc") []
  = (Ok ("https://example.my.salesforce.com"
         +:+ "/services/data/v58.0/sobjects/Attachment/"
         +:+ Py.strip "00Pabc" +:+ "/Body", None), [])
  /\ Simple.try_block sample_env (Simple.Input "00Pabc") []
     = retrieve sample_env
         (Py.rstrip (url sample_credentials) "/"
          +:+ "/services/data/v58.0/sobjects/Attachment/"
          +:+ Py.strip "00Pabc" +:+ "/Body")
         (auth_headers sample_credentials) [].
Proof.
  apply (X3_attachment_identifier_direct sample_env "00Pabc"
           sample_credentials "https://example.my.salesforce.com" ∅ []);
    reflexivity.
Defined.

(** ** The lookup of a container identifier *)

Section Lookup.

Variables (E : env) (base_url : string) (headers : gmap string string)
  (file_id : string) (tr : list request) (query_response : response).

Hypothesis prefix_069 : Py.startswith file_id "069" = true.
Hypothesis answered :
  http E (lookup_request base_url headers file_id) = Ok query_response.

Lemma resolve_lookup :
  resolve E base_url headers file_id tr
  = match raise_for_status query_response with
    | Raise e => (Raise e, tr ++ [lookup_request base_url headers file_id])
    | Ok _ =>
        match json query_response with
        | Raise e => (Raise e, tr ++ [lookup_request base_url headers file_id])
        | Ok query_data =>
            match get_records query_data with
            | Some (record :: _) =>
                match record !! "Id" with
                | Some content_version_id =>
                    (Ok (version_data_url base_url content_version_id,
                         Some file_id),
                     tr ++ [lookup_request base_url headers file_id])
                | None =>
                    (Raise (KeyError "Id"),
                     tr ++ [lookup_request base_url headers file_id])
                end
            | _ =>
                (Raise (ValueError (no_file_found_msg file_id)),
                 tr ++ [lookup_request base_url headers file_id])
            end
        end
    end.
Proof.
  unfold resolve. rewrite prefix_069.
  unfold bind, requests_get, send, lift.
  fold (lookup_request base_url headers file_id). rewrite answered.
  destruct (raise_for_status query_response) as [[]|e]; [|reflexivity].
  destruct (json query_response) as [query_data|e]; [|reflexivity].
  destruct (get_records query_data) as [[|record records]|]; try reflexivity.
  destruct (record !! "Id"); reflexivity.
Qed.

End Lookup.

(** X4.  For an identifier with the prefix 069 whose lookup is answered
    with at least one record, the resolver takes the [Id] of the first
    record, whatever follows it, builds the version-data address from that
    [Id], and keeps the identifier it was given as the original container
    identifier; it has sent the one lookup request. *)
Theorem X4_first_record_resolves (E : env) (base_url : string)
    (headers : gmap string string) (file_id : string) (tr : list request)
    (query_response : response) (query_data : json_object)
    (record : gmap string string) (records : list (gmap string string))
    (content_version_id : string) :
  Py.startswith file_id "069" = true ->
  http E (lookup_request base_url headers file_id) = Ok query_response ->
  raise_for_status query_response = Ok tt ->
  json query_response = Ok query_data ->
  get_records query_data = Some (record :: records) ->
  record !! "Id" = Some content_version_id ->
  resolve E base_url headers file_id tr
  = (Ok (base_url +:+ "/services/data/v58.0/sobjects/ContentVersion/"
         +:+ content_version_id +:+ "/VersionData", Some file_id),
     tr ++ [lookup_request base_url headers file_id]).
Proof.
  intros H069 Hhttp Hstatus Hjson Hrecords Hid.
  rewrite (resolve_lookup E base_url headers file_id tr query_response
             H069 Hhttp).
  now rewrite Hstatus, Hjson, Hrecords, Hid.
Qed.

Lemma X4_witness :
  resolve sample_env "https://example.my.salesforce.com" ∅ "069abc" []
  = (Ok ("https://example.my.salesforce.com"
         +:+ "/services/data/v58.0/sobjects/ContentVersion/"
         +:+ "068VERSION0000001" +:+ "/VersionData", Some "069abc"),
     [] ++ [lookup_request "https://example.my.salesforce.com" ∅ "069abc"]).
Proof.
  apply (X4_first_record_resolves sample_env
           "https://example.my.salesforce.com" ∅ "069abc" []
           (reply 200 "OK" sample_json) sample_json
           {[ "Id" := "068VERSION0000001";
              "ContentDocumentId" := "069DOCUMENT000002" ]} []
           "068VERSION0000001"); reflexivity.
Defined.

(** X5.  If the first record of the lookup answer has no [Id], the resolver
    raises [KeyError] for that key. *)
Theorem X5_record_without_id (E : env) (base_url : string)
    (headers : gmap string string) (file_id : string) (tr : list request)
    (query_response : response) (query_data : json_object)
    (record : gmap string string) (records : list (gmap string string)) :
  Py.startswith file_id "069" = true ->
  http E (lookup_request base_url headers file_id) = Ok query_response ->
  raise_for_status query_response = Ok tt ->
  json query_response = Ok query_data ->
  get_records query_data = Some (record :: records) ->
  record !! "Id" = None ->
  resolve E base_url headers file_id tr
  = (Raise (KeyError "Id"), tr ++ [lookup_request base_url headers file_id]).
Proof.
  intros H069 Hhttp Hstatus Hjson Hrecords Hid.
  rewrite (resolve_lookup E base_url headers file_id tr query_response
             H069 Hhttp).
  now rewrite Hstatus, Hjson, Hrecords, Hid.
Qed.

(** X6.  An answer of the lookup that has no [records] entry at all is
    treated like one with an empty list of records: the resolver raises the
    not-found error. *)
Theorem X6_no_records_entry (E : env) (base_url : string)
    (headers : gmap string string) (file_id : string) (tr : list request)
    (query_response : response) (query_data : json_object) :
  Py.startswith file_id "069" = true ->
  http E (lookup_request base_url headers file_id) = Ok query_response ->
  raise_for_status query_response = Ok tt ->
  json query_response = Ok query_data ->
  get_records query_data = None ->
  resolve E base_url headers file_id tr
  = (Raise (ValueError ("No file found with ContentDocument ID: " +:+ file_id)),
     tr ++ [lookup_request base_url headers file_id]).
Proof.
  intros H069 Hhttp Hstatus Hjson Hrecords.
  rewrite (resolve_lookup E base_url headers file_id tr query_response
             H069 Hhttp).
  now rewrite Hstatus, Hjson, Hrecords.
Qed.

(** X7.  If the lookup is not answered, or is answered with a status from
    400 to 599, the handler raises (the error of the transport, or
    [HTTPError] for that status) and has sent nothing but the lookup
    request: no download is tried. *)
Theorem X7_failed_lookup_stops (E : env) (file_id : string)
    (creds : credentials) (tr : list request) (outcome : result response) :
  Py.startswith (Py.strip file_id) "069" = true ->
  oauth2_auth_code E SALESFORCE_APP_ID = Ok creds ->
  http E (lookup_request (Py.rstrip (url creds) "/") (auth_headers creds)
            (Py.strip file_id)) = outcome ->
  match outcome with
  | Raise e => True
  | Ok r => 400 <= status_code r < 600
  end ->
  exists e,
    Simple.try_block E (Simple.Input file_id) tr
    = (Raise e,
       tr ++ [lookup_request (Py.rstrip (url creds) "/") (auth_headers creds)
                (Py.strip file_id)])
    /\ match outcome with
       | Raise e' => e = e'
       | Ok r => exists msg, e = HTTPError msg (status_code r)
       end.
Proof.
  intros H069 Hcreds Hhttp Hfails.
  destruct (startswith_3 _ _ _ _ H069) as (rest & Hid).
  assert (Hne : String.eqb (Py.strip file_id) EmptyString = false)
    by now rewrite Hid.
  unfold Simple.try_block. cbn [Simple.file_id]. rewrite Hne.
  unfold bind at 1, lift at 1. rewrite Hcreds.
  unfold bind at 1.
  destruct outcome as [r|e].
  - rewrite (resolve_lookup E _ _ _ tr r H069 Hhttp).
    unfold raise_for_status.
    destruct (Z.ltb_spec (status_code r) 500) as [Hlt|Hge].
    + replace (400 <=? status_code r) with true
        by (symmetry; apply Z.leb_le; lia).
      cbn [andb]. eexists. split; [reflexivity | eexists; reflexivity].
    + rewrite andb_false_r.
      replace (500 <=? status_code r) with true
        by (symmetry; apply Z.leb_le; lia).
      replace (status_code r <? 600) with true
        by (symmetry; apply Z.ltb_lt; lia).
      cbn [andb]. eexists. split; [reflexivity | eexists; reflexivity].
  - exists e. split; [|reflexivity].
    unfold resolve. rewrite H069.
    unfold bind at 1, requests_get, send.
    fold (lookup_request (Py.rstrip (url creds) "/") (auth_headers creds)
            (Py.strip file_id)).
    now rewrite Hhttp.
Qed.

Lemma X5_witness :
  resolve no_id_env "https://example.my.salesforce.com" ∅ "069abc" []
  = (Raise (KeyError "Id"),
     [] ++ [lookup_request "https://example.my.salesforce.com" ∅ "069abc"]).
Proof.
  apply (X5_record_without_id no_id_env
           "https://example.my.salesforce.com" ∅ "069abc" []
           (reply 200 "OK"
              (JsonObject
                 (Some [ {[ "ContentDocumentId" := "069DOCUMENT000002" ]} ])
                 None None "{'records': [{}]}"))
           (JsonObject
              (Some [ {[ "ContentDocumentId" := "069DOCUMENT000002" ]} ])
              None None "{'records': [{}]}")
           {[ "ContentDocumentId" := "069DOCUMENT000002" ]} []);
    reflexivity.
Defined.

Lemma X6_witness :
  resolve bare_answer_env "https://example.my.salesforce.com" ∅ "069abc" []
  = (Raise (ValueError ("No file found with ContentDocument ID: " +:+ "069abc")),
     [] ++ [lookup_request "https://example.my.salesforce.com" ∅ "069abc"]).
Proof.
  apply (X6_no_records_entry bare_answer_env
           "https://example.my.salesforce.com" ∅ "069abc" []
           (reply 200 "OK" (JsonObject None None None "{}"))
           (JsonObject None None None "{}")); reflexivity.
Defined.

Lemma X7_witness :
  exists e,
    Simple.try_block not_found_env (Simple.Input "069abc") []
    = (Raise e,
       [] ++ [lookup_request (Py.rstrip (url sample_credentials) "/")
                (auth_headers sample_credentials) (Py.strip "069abc")])
    /\ exists msg, e = HTTPError msg 404.
Proof.
  apply (X7_failed_lookup_stops not_found_env "069abc" sample_credentials []
           (Ok (reply 404 "Not Found" sample_json)));
    [reflexivity | reflexivity | reflexivity | simpl; lia].
Defined.

(** ** The retriever on an answer that is no error *)

Lemma retrieve_body (E : env) (download_url : string)
    (headers : gmap string string) (tr : list request) (r : response)
    (body : list Byte.byte) :
  http E (download_request download_url headers) = Ok r ->
  ~ (400 <= status_code r < 600) ->
  content r = Ok body ->
  retrieve E download_url headers tr
  = (Ok body, tr ++ [download_request download_url headers]).
Proof.
  intros Hhttp Hstatus Hbody.
  unfold retrieve, bind, requests_get, send, lift.
  fold (download_request download_url headers).
  rewrite Hhttp. unfold raise_for_status.
  destruct (Z.leb_spec 400 (status_code r)) as [H4|H4];
    destruct (Z.ltb_spec (status_code r) 500) as [H5|H5];
    destruct (Z.leb_spec 500 (status_code r)) as [H5'|H5'];
    destruct (Z.ltb_spec (status_code r) 600) as [H6|H6];
    cbn [andb]; try lia; now rewrite Hbody.
Qed.

(** X8.  For an answer whose status is outside 400 to 599 and whose body can
    be read, the retriever returns the body as it was received, after the
    one streamed GET with the timeout of 60 seconds. *)
Theorem X8_body_returned_unchanged (E : env) (download_url : string)
    (headers : gmap string string) (tr : list request) (r : response)
    (body : list Byte.byte) :
  http E (Request GET download_url headers ∅ None 60 true) = Ok r ->
  ~ (400 <= status_code r < 600) ->
  content r = Ok body ->
  retrieve E download_url headers tr
  = (Ok body, tr ++ [Request GET download_url headers ∅ None 60 true]).
Proof. apply retrieve_body. Qed.

Lemma X8_witness :
  retrieve sample_env "https://example.my.salesforce.com/b" ∅ []
  = (Ok (Py.encode_utf8 "PK"),
     [] ++ [Request GET "https://example.my.salesforce.com/b" ∅ ∅ None 60 true]).
Proof.
  apply (X8_body_returned_unchanged sample_env
           "https://example.my.salesforce.com/b" ∅ []
           (reply 200 "OK" sample_json));
    [reflexivity | simpl; lia | reflexivity].
Defined.

(** ** What every request of a handler looks like *)

Lemma sends_weaken {A} (P Q : request -> Prop) (c : M A) :
  (forall rq, P rq -> Q rq) -> sends P c -> sends Q c.
Proof.
  intros HPQ Hc tr. destruct (Hc tr) as (ext & Hext & HP).
  exists ext. split; [exact Hext|]. eapply Forall_impl; eauto.
Qed.

Lemma sends_in {A} (Q : request -> Prop) (c : M A) (rq : request) :
  sends Q c -> In rq (snd (c [])) -> Q rq.
Proof.
  intros Hc Hin. destruct (Hc []) as (ext & Hext & HQ).
  rewrite Hext in Hin. cbn [app] in Hin.
  rewrite Forall_forall in HQ. apply HQ. now apply list_elem_of_In.
Qed.

Lemma startswith_app_same (a b p : string) :
  Py.startswith (a +:+ b) (a +:+ p) = Py.startswith b p.
Proof.
  induction a as [|c a IH]; [reflexivity|].
  rewrite !append_cons. cbn [Py.startswith].
  now rewrite Ascii.eqb_refl.
Qed.

Section RequestsOfOneInstance.

Variables (E : env) (creds : credentials).

Local Abbreviation base_url := (Py.rstrip (url creds) "/").
Local Abbreviation root := (base_url +:+ "/services/data/v58.0/").

Lemma auth_headers_token :
  auth_headers creds !! "Authorization"
  = Some ("Bearer " +:+ access_token creds).
Proof. unfold auth_headers. apply lookup_insert_eq. Qed.

Lemma resolve_sends_ok (file_id : string) :
  sends (request_ok creds) (resolve E base_url (auth_headers creds) file_id).
Proof.
  unfold resolve, requests_get. cbv zeta.
  repeat sends_step.
  split; [reflexivity|]. split; [apply auth_headers_token|].
  cbn [req_url]. rewrite startswith_app_same. reflexivity.
Qed.

Lemma resolve_under_root (headers : gmap string string) (file_id : string)
    (tr tr' : list request) (resolved : string * option string) :
  resolve E base_url headers file_id tr = (Ok resolved, tr') ->
  Py.startswith (fst resolved) root = true.
Proof.
  unfold resolve.
  destruct (Py.startswith file_id "069").
  - intros H.
    apply bind_ok in H as (r & tr1 & _ & H).
    apply bind_ok in H as (u & tr2 & _ & H).
    apply bind_ok in H as (query_data & tr3 & _ & H).
    destruct (get_records query_data) as [[|record records]|];
      try discriminate.
    destruct (record !! "Id"); [|discriminate].
    injection H as <- _. cbn [fst]. unfold version_data_url.
    rewrite startswith_app_same. reflexivity.
  - destruct (Py.startswith file_id "068").
    + intros H. injection H as <- _. cbn [fst]. unfold version_data_url.
      rewrite startswith_app_same. reflexivity.
    + destruct (Py.startswith file_id "00P"); [|discriminate].
      intros H. injection H as <- _. cbn [fst]. unfold attachment_body_url.
      rewrite startswith_app_same. reflexivity.
Qed.

Lemma retrieve_sends_ok (download_url : string) :
  Py.startswith download_url root = true ->
  sends (request_ok creds) (retrieve E download_url (auth_headers creds)).
Proof.
  intros Hurl. unfold retrieve, requests_get.
  repeat sends_step.
  split; [reflexivity|]. split; [apply auth_headers_token | exact Hurl].
Qed.

Lemma upload_sends_ok (file_content : list Byte.byte) (title : string) :
  sends (request_ok creds)
    (Upload.upload_file_to_salesforce E base_url (access_token creds)
       file_content title None).
Proof.
  unfold Upload.upload_file_to_salesforce, requests_get, requests_post.
  cbv zeta.
  repeat sends_step.
  - split; [reflexivity|]. split; [apply lookup_insert_eq|].
    cbn [req_url]. rewrite startswith_app_same. reflexivity.
  - split; [reflexivity|]. split; [apply lookup_singleton_eq|].
    cbn [req_url]. rewrite startswith_app_same. reflexivity.
Qed.

End RequestsOfOneInstance.

Lemma sends_after_credentials {A} (E : env) (k : credentials -> M A) :
  (forall creds, oauth2_auth_code E SALESFORCE_APP_ID = Ok creds ->
                 sends (request_ok creds) (k creds)) ->
  sends (fun rq => forall creds,
           oauth2_auth_code E SALESFORCE_APP_ID = Ok creds ->
           request_ok creds rq)
    (bind (lift (oauth2_auth_code E SALESFORCE_APP_ID)) k).
Proof.
  intros Hk. apply sends_bind; [apply sends_lift|].
  intros creds tr tr' Hcreds. unfold lift in Hcreds.
  injection Hcreds as Hcreds _.
  apply (sends_weaken (request_ok creds)); [|now apply Hk].
  intros rq Hrq creds' Hcreds'. congruence.
Qed.

Lemma simple_handler_sends_ok (E : env) (input_data : Simple.SalesforceFileInput) :
  sends (fun rq => forall creds,
           oauth2_auth_code E SALESFORCE_APP_ID = Ok creds ->
           request_ok creds rq)
    (Simple.salesforce_download_file E input_data).
Proof.
  unfold Simple.salesforce_download_file.
  apply sends_try_except; [|intros; apply sends_ret].
  unfold Simple.try_block. cbv zeta.
  destruct (String.eqb _ _); [apply sends_raise|].
  apply sends_after_credentials. intros creds Hcreds.
  apply sends_bind; [apply resolve_sends_ok|].
  intros resolved tr tr' Hresolve.
  apply sends_bind; [|intros; apply sends_ret].
  apply retrieve_sends_ok. eapply resolve_under_root; eauto.
Qed.

Lemma replace_handler_sends_ok (E : env)
    (input_data : Replace.SalesforceFileInput) :
  sends (fun rq => forall creds,
           oauth2_auth_code E SALESFORCE_APP_ID = Ok creds ->
           request_ok creds rq)
    (Replace.salesforce_download_file E input_data).
Proof.
  unfold Replace.salesforce_download_file.
  apply sends_try_except; [|intros; apply sends_ret].
  unfold Replace.try_block. cbv zeta.
  destruct (String.eqb _ _); [apply sends_raise|].
  apply sends_after_credentials. intros creds Hcreds.
  apply sends_bind; [apply resolve_sends_ok|].
  intros resolved tr tr' Hresolve.
  apply sends_bind;
    [apply retrieve_sends_ok; eapply resolve_under_root; eauto|].
  intros file_content _ _ _.
  apply sends_bind; [|intros; apply sends_ret].
  apply modify_pptx_template_sends.
Qed.

Lemma upload_handler_sends_ok (E : env)
    (input_data : Upload.SalesforceFileInput) :
  sends (fun rq => forall creds,
           oauth2_auth_code E SALESFORCE_APP_ID = Ok creds ->
           request_ok creds rq)
    (Upload.salesforce_download_file E input_data).
Proof.
  unfold Upload.salesforce_download_file.
  apply sends_try_except; [|intros; apply sends_ret].
  unfold Upload.try_block. cbv zeta.
  destruct (String.eqb _ _); [apply sends_raise|].
  apply sends_after_credentials. intros creds Hcreds.
  apply sends_bind; [apply resolve_sends_ok|].
  intros resolved tr tr' Hresolve.
  apply sends_bind;
    [apply retrieve_sends_ok; eapply resolve_under_root; eauto|].
  intros file_content _ _ _.
  apply sends_bind.
  { apply modify_pptx_template_sends. }
  intros content _ _ _.
  apply sends_bind; [|intros; apply sends_ret].
  destruct (Upload.upload_back_to_salesforce input_data); [|apply sends_ret].
  apply sends_bind; [|intros; apply sends_ret].
  apply upload_sends_ok.
Qed.

(** X9.  Every request that any of the three handlers sends has the timeout
    of 60 seconds, carries the bearer token of the credentials in its
    [Authorization] header, and goes to an address below
    [/services/data/v58.0/] of the instance address (the address of the
    credentials without its trailing slashes). *)
Theorem X9_requests_well_formed (E : env) (creds : credentials)
    (simple_input : Simple.SalesforceFileInput)
    (replace_input : Replace.SalesforceFileInput)
    (upload_input : Upload.SalesforceFileInput) (rq : request) :
  oauth2_auth_code E SALESFORCE_APP_ID = Ok creds ->
  In rq (snd (Simple.salesforce_download_file E simple_input []))
  \/ In rq (snd (Replace.salesforce_download_file E replace_input []))
  \/ In rq (snd (Upload.salesforce_download_file E upload_input [])) ->
  req_timeout rq = 60
  /\ req_headers rq !! "Authorization"
     = Some ("Bearer " +:+ access_token creds)
  /\ Py.startswith (req_url rq)
       (Py.rstrip (url creds) "/" +:+ "/services/data/v58.0/") = true.
Proof.
  intros Hcreds [Hin | [Hin | Hin]].
  - exact (sends_in _ _ rq (simple_handler_sends_ok E simple_input) Hin
             creds Hcreds).
  - exact (sends_in _ _ rq (replace_handler_sends_ok E replace_input) Hin
             creds Hcreds).
  - exact (sends_in _ _ rq (upload_handler_sends_ok E upload_input) Hin
             creds Hcreds).
Qed.

Lemma X9_witness :
  req_timeout (sample_creation_request "Certificate" sample_document) = 60
  /\ req_headers (sample_creation_request "Certificate" sample_document)
       !! "Authorization"
     = Some ("Bearer " +:+ access_token sample_credentials)
  /\ Py.startswith
       (req_url (sample_creation_request "Certificate" sample_document))
       (Py.rstrip (url sample_credentials) "/" +:+ "/services/data/v58.0/")
     = true.
Proof.
  apply (X9_requests_well_formed sample_env sample_credentials
           (Simple.Input "068abc") (Replace.Input "068abc" "Acme" "Gold")
           (Upload.Input "068abc" "Acme Corporation" "Gold" true "Certificate")
           (sample_creation_request "Certificate" sample_document)).
  - reflexivity.
  - right. right. vm_compute. right. left. reflexivity.
Defined.

(** ** How many requests a handler sends *)

Lemma sends_at_most_pure {A} (n : nat) (c : M A) :
  (forall tr, snd (c tr) = tr) -> sends_at_most n c.
Proof.
  intros H tr. exists []. rewrite app_nil_r, H. split; [reflexivity|].
  cbn. lia.
Qed.

Lemma sends_at_most_send (E : env) (rq : request) (n : nat) :
  (1 <= n)%nat -> sends_at_most n (send E rq).
Proof. intros H tr. exists [rq]. split; [reflexivity | exact H]. Qed.

Lemma sends_at_most_bind {A B} (n m p : nat) (c : M A) (k : A -> M B) :
  sends_at_most n c -> (forall a, sends_at_most m (k a)) ->
  (n + m <= p)%nat -> sends_at_most p (bind c k).
Proof.
  intros Hc Hk Hp tr. unfold bind.
  destruct (Hc tr) as (ext & Htr & Hext).
  destruct (c tr) as [[a|e] tr']; cbn [snd] in Htr; subst tr'.
  - destruct (Hk a (tr ++ ext)) as (ext' & -> & Hext').
    exists (ext ++ ext'). rewrite app_assoc. split; [reflexivity|].
    rewrite length_app. lia.
  - exists ext. split; [reflexivity | lia].
Qed.

Lemma sends_at_most_try_except {A} (n : nat) (c : M A) (h : exn -> M A) :
  sends_at_most n c -> (forall e tr, snd (h e tr) = tr) ->
  sends_at_most n (try_except c h).
Proof.
  intros Hc Hh tr. unfold try_except.
  destruct (Hc tr) as (ext & Htr & Hext).
  destruct (c tr) as [[a|e] tr']; cbn [snd] in Htr; subst tr'.
  - exists ext. now split.
  - exists ext. now rewrite Hh.
Qed.

Ltac pure_step := apply sends_at_most_pure; intros; reflexivity.

Lemma resolve_sends_at_most (E : env) (base_url : string)
    (headers : gmap string string) (file_id : string) :
  sends_at_most 1 (resolve E base_url headers file_id).
Proof.
  unfold resolve, requests_get. cbv zeta.
  destruct (Py.startswith file_id "069").
  - apply (sends_at_most_bind 1 0); [now apply sends_at_most_send | | lia].
    intros r.
    apply (sends_at_most_bind 0 0); [pure_step | | lia]. intros _.
    apply (sends_at_most_bind 0 0); [pure_step | | lia]. intros query_data.
    destruct (get_records query_data) as [[|record records]|];
      try pure_step.
    destruct (record !! "Id"); pure_step.
  - destruct (Py.startswith file_id "068"); [pure_step|].
    destruct (Py.startswith file_id "00P"); pure_step.
Qed.

Lemma retrieve_sends_at_most (E : env) (download_url : string)
    (headers : gmap string string) :
  sends_at_most 1 (retrieve E download_url headers).
Proof.
  unfold retrieve, requests_get.
  apply (sends_at_most_bind 1 0); [now apply sends_at_most_send | | lia].
  intros r.
  apply (sends_at_most_bind 0 0); [pure_step | | lia]. intros _. pure_step.
Qed.

Lemma modify_pptx_template_silent (E : env) (file_content : list Byte.byte)
    (company_name tier : string) (tr : list request) :
  snd (modify_pptx_template E file_content company_name tier tr) = tr.
Proof.
  unfold modify_pptx_template, try_except, bind, lift, raise.
  destruct (Presentation E file_content) as [prs|e]; [|reflexivity].
  cbv zeta. now destruct (save E _).
Qed.

Lemma upload_sends_at_most (E : env) (base_url access_token : string)
    (file_content : list Byte.byte) (title : string)
    (original : option string) :
  sends_at_most 2
    (Upload.upload_file_to_salesforce E base_url access_token file_content
       title original).
Proof.
  unfold Upload.upload_file_to_salesforce, requests_get, requests_post.
  cbv zeta.
  apply sends_at_most_try_except; [|reflexivity].
  apply (sends_at_most_bind 1 1); [now apply sends_at_most_send | | lia].
  intros r.
  apply (sends_at_most_bind 0 1); [pure_step | | lia]. intros _.
  apply (sends_at_most_bind 0 1); [pure_step | | lia]. intros upload_result.
  destruct (get_success upload_result) as [[|]|]; try pure_step.
  destruct (get_id upload_result); [|pure_step].
  apply (sends_at_most_bind 1 0); [now apply sends_at_most_send | | lia].
  intros q.
  apply (sends_at_most_bind 0 0); [pure_step | | lia]. intros _.
  apply (sends_at_most_bind 0 0); [pure_step | | lia]. intros query_data.
  apply (sends_at_most_bind 0 0); [| intros; pure_step | lia].
  destruct (get_records query_data) as [[|record records]|]; try pure_step.
  destruct (record !! "ContentDocumentId"); pure_step.
Qed.

(** X10.  No handler repeats a request: one run of the download handler or
    of the rewriting handler sends at most two requests (the lookup and the
    download), one run of the uploading handler at most four (these two, the
    creation and the lookup after it). *)
Theorem X10_request_count (E : env)
    (simple_input : Simple.SalesforceFileInput)
    (replace_input : Replace.SalesforceFileInput)
    (upload_input : Upload.SalesforceFileInput) :
  (length (snd (Simple.salesforce_download_file E simple_input [])) <= 2)%nat
  /\ (length (snd (Replace.salesforce_download_file E replace_input [])) <= 2)%nat
  /\ (length (snd (Upload.salesforce_download_file E upload_input [])) <= 4)%nat.
Proof.
  assert (Hlen : forall A n (c : M A), sends_at_most n c ->
                   (length (snd (c [])) <= n)%nat).
  { intros A n c Hc. destruct (Hc []) as (ext & -> & Hext). exact Hext. }
  repeat split; apply Hlen.
  - unfold Simple.salesforce_download_file.
    apply sends_at_most_try_except; [|reflexivity].
    unfold Simple.try_block. cbv zeta.
    destruct (String.eqb _ _); [pure_step|].
    apply (sends_at_most_bind 0 2); [pure_step | | lia]. intros creds.
    apply (sends_at_most_bind 1 1); [apply resolve_sends_at_most | | lia].
    intros resolved.
    apply (sends_at_most_bind 1 0); [apply retrieve_sends_at_most | | lia].
    intros; pure_step.
  - unfold Replace.salesforce_download_file.
    apply sends_at_most_try_except; [|reflexivity].
    unfold Replace.try_block. cbv zeta.
    destruct (String.eqb _ _); [pure_step|].
    apply (sends_at_most_bind 0 2); [pure_step | | lia]. intros creds.
    apply (sends_at_most_bind 1 1); [apply resolve_sends_at_most | | lia].
    intros resolved.
    apply (sends_at_most_bind 1 0); [apply retrieve_sends_at_most | | lia].
    intros file_content.
    apply (sends_at_most_bind 0 0); [ | intros; pure_step | lia].
    apply sends_at_most_pure. apply modify_pptx_template_silent.
  - unfold Upload.salesforce_download_file.
    apply sends_at_most_try_except; [|reflexivity].
    unfold Upload.try_block. cbv zeta.
    destruct (String.eqb _ _); [pure_step|].
    apply (sends_at_most_bind 0 4); [pure_step | | lia]. intros creds.
    apply (sends_at_most_bind 1 3); [apply resolve_sends_at_most | | lia].
    intros resolved.
    apply (sends_at_most_bind 1 2); [apply retrieve_sends_at_most | | lia].
    intros file_content.
    apply (sends_at_most_bind 0 2); [ | | lia].
    { apply sends_at_most_pure. apply modify_pptx_template_silent. }
    intros content.
    apply (sends_at_most_bind 2 0); [ | intros; pure_step | lia].
    destruct (Upload.upload_back_to_salesforce upload_input); [|pure_step].
    apply (sends_at_most_bind 2 0); [ | intros; pure_step | lia].
    apply upload_sends_at_most.
Qed.

(** ** Handlers that only read *)

(** X11.  The download handler and the rewriting handler send GET requests
    only, and so does the uploading handler when upload is switched off:
    they change nothing on the server. *)
Theorem X11_read_only (E : env)
    (simple_input : Simple.SalesforceFileInput)
    (replace_input : Replace.SalesforceFileInput)
    (upload_input : Upload.SalesforceFileInput) (rq : request) :
  In rq (snd (Simple.salesforce_download_file E simple_input []))
  \/ In rq (snd (Replace.salesforce_download_file E replace_input []))
  \/ (Upload.upload_back_to_salesforce upload_input = false
      /\ In rq (snd (Upload.salesforce_download_file E upload_input []))) ->
  req_method rq = GET.
Proof.
  intros [Hin | [Hin | [Hoff Hin]]].
  - apply (sends_in (fun r => req_method r = GET) _ rq) in Hin; [exact Hin|].
    unfold Simple.salesforce_download_file, Simple.try_block. cbv zeta.
    apply sends_try_except; [|intros; apply sends_ret].
    destruct (String.eqb _ _); [apply sends_raise|].
    apply sends_bind; [apply sends_lift|]. intros creds _ _ _.
    apply sends_bind; [now apply resolve_sends|]. intros resolved _ _ _.
    apply sends_bind; [now apply retrieve_sends|]. intros; apply sends_ret.
  - apply (sends_in (fun r => req_method r = GET) _ rq) in Hin; [exact Hin|].
    unfold Replace.salesforce_download_file, Replace.try_block. cbv zeta.
    apply sends_try_except; [|intros; apply sends_ret].
    destruct (String.eqb _ _); [apply sends_raise|].
    apply sends_bind; [apply sends_lift|]. intros creds _ _ _.
    apply sends_bind; [now apply resolve_sends|]. intros resolved _ _ _.
    apply sends_bind; [now apply retrieve_sends|]. intros file_content _ _ _.
    apply sends_bind; [apply modify_pptx_template_sends|].
    intros; apply sends_ret.
  - pose proof (upload_handler_request E upload_input rq Hin) as Hrq.
    unfold creation_request_of in Hrq.
    destruct (req_method rq); [reflexivity|].
    destruct (Hrq eq_refl) as [Hon _]. congruence.
Qed.

Lemma X11_witness :
  req_method (download_request
                "https://example.my.salesforce.com/services/data/v58.0/sobjects/ContentVersion/068abc/VersionData"
                (auth_headers sample_credentials)) = GET.
Proof.
  apply (X11_read_only sample_env (Simple.Input "068abc")
           (Replace.Input "068abc" "Acme" "Gold")
           (Upload.Input "068abc" "Acme" "Gold" false "Certificate")).
  right. right. split; [reflexivity|]. vm_compute. left. reflexivity.
Defined.

(** ** How the three handlers relate *)

Lemma bind_ext {A B} (c : M A) (k k' : A -> M B) (tr : list request) :
  (forall a tr', k a tr' = k' a tr') -> bind c k tr = bind c k' tr.
Proof.
  intros H. unfold bind. destruct (c tr) as [[a|e] tr']; [apply H | reflexivity].
Qed.

Lemma bind_assoc {A B C} (c : M A) (k : A -> M B) (h : B -> M C)
    (tr : list request) :
  bind (bind c k) h tr = bind c (fun a => bind (k a) h) tr.
Proof. unfold bind. now destruct (c tr) as [[a|e] tr']. Qed.

Lemma bind_ret_r {A} (c : M A) (tr : list request) :
  bind c (fun a => ret a) tr = c tr.
Proof. unfold bind, ret. now destruct (c tr) as [[a|e] tr']. Qed.

(** X12.  With upload switched off, the uploading handler is the rewriting
    handler: for the same identifier, company name and tier it returns the
    same bytes and sends the same requests, whatever the title. *)
Theorem X12_upload_off_is_replace (E : env)
    (file_id company_name tier title : string) (tr : list request) :
  Upload.salesforce_download_file E
    (Upload.Input file_id company_name tier false title) tr
  = Replace.salesforce_download_file E
      (Replace.Input file_id company_name tier) tr.
Proof.
  unfold Upload.salesforce_download_file, Replace.salesforce_download_file,
    try_except.
  replace (Upload.try_block E
             (Upload.Input file_id company_name tier false title) tr)
    with (Replace.try_block E (Replace.Input file_id company_name tier) tr);
    [reflexivity|].
  unfold Upload.try_block, Replace.try_block.
  cbn [Upload.file_id Upload.company_name Upload.tier Upload.title
       Upload.upload_back_to_salesforce
       Replace.file_id Replace.company_name Replace.tier].
  cbv zeta.
  destruct (String.eqb _ _); [reflexivity|].
  apply bind_ext. intros creds tr1.
  apply bind_ext. intros resolved tr2.
  apply bind_ext. intros file_content tr3.
  apply bind_ext. intros content tr4. reflexivity.
Qed.

(** X13.  The rewriting handler is the download handler followed by the
    rewriter: its [try] block does what the [try] block of the download
    handler does for the same identifier and then hands the downloaded bytes
    to [modify_pptx_template] with the trimmed company name and tier. *)
Theorem X13_replace_is_download_then_rewrite (E : env)
    (file_id company_name tier : string) (tr : list request) :
  Replace.try_block E (Replace.Input file_id company_name tier) tr
  = bind (Simple.try_block E (Simple.Input file_id))
      (fun file_content =>
         modify_pptx_template E file_content (Py.strip company_name)
           (Py.strip tier)) tr.
Proof.
  unfold Replace.try_block, Simple.try_block.
  cbn [Replace.file_id Replace.company_name Replace.tier Simple.file_id].
  cbv zeta.
  destruct (String.eqb _ _); [reflexivity|].
  rewrite bind_assoc. apply bind_ext. intros creds tr1.
  rewrite bind_assoc. apply bind_ext. intros resolved tr2.
  rewrite bind_assoc. apply bind_ext. intros file_content tr3.
  now rewrite bind_ret_r.
Qed.

(** X14.  Uploading does not change what is returned: whenever the [try]
    block of the uploading handler returns a document, the [try] block of
    the rewriting handler returns the same document for the same
    identifier, company name and tier, and the requests of the rewriting
    handler are the first requests of the uploading handler. *)
Theorem X14_upload_returns_rewritten_document (E : env)
    (file_id company_name tier title : string) (upload_back : bool)
    (tr tr' : list request) (document : list Byte.byte) :
  Upload.try_block E
    (Upload.Input file_id company_name tier upload_back title) tr
  = (Ok document, tr') ->
  exists tr'' ext,
    Replace.try_block E (Replace.Input file_id company_name tier) tr
    = (Ok document, tr'')
    /\ tr' = tr'' ++ ext.
Proof.
  unfold Upload.try_block, Replace.try_block.
  cbn [Upload.file_id Upload.company_name Upload.tier Upload.title
       Upload.upload_back_to_salesforce
       Replace.file_id Replace.company_name Replace.tier].
  cbv zeta.
  destruct (String.eqb _ _); [discriminate|]. intros Hrun.
  apply bind_ok in Hrun as (creds & tr1 & Hcreds & Hrun).
  apply bind_ok in Hrun as (resolved & tr2 & Hresolve & Hrun).
  apply bind_ok in Hrun as (file_content & tr3 & Hretrieve & Hrun).
  apply bind_ok in Hrun as (content & tr4 & Hmodify & Hrun).
  apply bind_ok in Hrun as ([] & tr5 & Hupload & Hrun).
  injection Hrun as <- <-.
  exists tr4.
  assert (Hext : exists ext, tr5 = tr4 ++ ext).
  { destruct upload_back.
    - apply bind_ok in Hupload as (details & tr6 & Hupload & Hret).
      injection Hret as <-.
      destruct (upload_sends_at_most E (Py.rstrip (url creds) "/")
                  (access_token creds) content
                  (Upload.dynamic_title (Py.strip title)
                     (Py.strip company_name) (Py.strip tier)) None tr4)
        as (ext & Hext & _).
      rewrite Hupload in Hext. cbn [snd] in Hext. eauto.
    - injection Hupload as <-. exists []. now rewrite app_nil_r. }
  destruct Hext as (ext & ->). exists ext. split; [|reflexivity].
  unfold bind at 1. rewrite Hcreds.
  unfold bind at 1. rewrite Hresolve.
  unfold bind at 1. rewrite Hretrieve.
  unfold bind at 1. rewrite Hmodify. reflexivity.
Qed.

Lemma X14_witness :
  exists tr'' ext,
    Replace.try_block sample_env
      (Replace.Input "068abc" "Acme Corporation" "Gold") []
    = (Ok sample_document, tr'')
    /\ snd (Upload.try_block sample_env
              (Upload.Input "068abc" "Acme Corporation" "Gold" true
                 "Certificate") [])
       = tr'' ++ ext.
Proof.
  apply (X14_upload_returns_rewritten_document sample_env "068abc"
           "Acme Corporation" "Gold" "Certificate" true []).
  vm_compute. reflexivity.
Defined.

(** ** What the rewriter keeps and what it writes *)

Section Layout.

Variables (company_name tier valid_through_date : string).

Lemma run_loop_layout (before after : list paragraph) (todo done : paragraph) :
  exists out,
    run_loop company_name tier valid_through_date before done todo after
    = done ++ out
    /\ Forall2 same_kind todo out.
Proof.
  revert done. induction todo as [|it rest IH]; intros done.
  - exists []. split; [now rewrite app_nil_r | constructor].
  - destruct it as [t| |t]; cbn [run_loop];
      match goal with
      | |- context [run_loop _ _ _ _ (done ++ [?x]) _ _] =>
          destruct (IH (done ++ [x])) as (out & -> & Hout);
          exists (x :: out); rewrite <- app_assoc; split;
          [reflexivity | constructor; [exact I || reflexivity | exact Hout]]
      end.
Qed.

Lemma paragraph_loop_layout (todo before : list paragraph) :
  exists out,
    paragraph_loop company_name tier valid_through_date before todo
    = before ++ out
    /\ Forall2 (Forall2 same_kind) todo out.
Proof.
  revert before. induction todo as [|p after IH]; intros before.
  - exists []. split; [now rewrite app_nil_r | constructor].
  - cbn [paragraph_loop].
    destruct (run_loop_layout before after p []) as (q & Hq & Hpq).
    cbn [app] in Hq. rewrite Hq.
    destruct (IH (before ++ [q])) as (out & -> & Hout).
    exists (q :: out). rewrite <- app_assoc. split; [reflexivity|].
    now constructor.
Qed.

Lemma modify_shape_layout (s : shape) :
  same_layout s (modify_shape company_name tier valid_through_date s).
Proof.
  unfold same_layout, modify_shape. destruct s as [[ps|]]; cbn; [|exact I].
  destruct (paragraph_loop_layout ps []) as (out & -> & Hout). exact Hout.
Qed.

End Layout.

(** X15.  The rewriter changes the text of runs and nothing else: the
    document that comes out of the loops has the same slides, in each slide
    the same shapes, in each shape with a text frame the same paragraphs,
    and in each paragraph the same items in the same order, run for run,
    line break for line break and text field for the same text field; a
    shape without a text frame stays without one. *)
Theorem X15_layout_kept (company_name tier valid_through_date : string)
    (prs : presentation) :
  Forall2 (Forall2 same_layout) prs
    (modify_slides company_name tier valid_through_date prs).
Proof.
  unfold modify_slides.
  induction prs as [|sl prs IH]; [constructor|].
  cbn [map]. constructor; [|exact IH].
  clear IH. induction sl as [|s sl IH]; [constructor|].
  cbn [map]. constructor; [apply modify_shape_layout | exact IH].
Qed.

(** *** The date that is written *)

Lemma match_here_literal (l : string) (q : list Py.atom) (s : string) :
  Py.match_here (Py.literal l ++ q) s = true -> Py.startswith s l = true.
Proof.
  revert s. induction l as [|c l IH]; intros s H; [reflexivity|].
  destruct s as [|x s]; [discriminate|].
  cbn in H. apply andb_true_iff in H as [Hc H].
  cbn [Py.startswith]. rewrite Hc. cbn [andb]. now apply IH.
Qed.

Lemma re_search_date_str_in (s : string) :
  Py.re_search date_pattern s = true -> Py.str_in "31 December" s = true.
Proof.
  induction s as [|c s IH]; cbn [Py.re_search Py.str_in]; intros H.
  - discriminate.
  - apply orb_true_iff in H as [H|H].
    + change date_pattern
        with (Py.literal "31 December"
              ++ [Py.Lit " "; Py.Digit; Py.Digit; Py.Digit; Py.Digit]) in H.
      now rewrite (match_here_literal _ _ _ H).
    + rewrite (IH H). apply orb_true_r.
Qed.

Lemma re_sub_writes (a : Py.atom) (p : list Py.atom) (repl s : string) :
  Py.re_search (a :: p) s = true ->
  Py.str_in repl (Py.re_sub (a :: p) repl s) = true.
Proof.
  unfold Py.re_sub. induction s as [|c s IH]; [discriminate|].
  cbn [Py.re_search Py.sub_from]. intros H.
  destruct (Py.match_here (a :: p) (String c s)).
  - apply str_in_app_l.
    rewrite <- (append_nil_r repl) at 2.
    apply str_in_app_l. clear.
    destruct repl as [|x repl]; [reflexivity|].
    cbn [Py.str_in]. rewrite <- (append_nil_r (String x repl)) at 1.
    now rewrite startswith_self_app.
  - cbn [orb] in H. cbn [Py.str_in]. rewrite (IH H). apply orb_true_r.
Qed.

Lemma escapable_app (a b : string) :
  escapable (a +:+ b) = escapable a || escapable b.
Proof.
  induction a as [|c a IH]; [reflexivity|].
  rewrite append_cons. cbn [escapable]. now rewrite IH, orb_assoc.
Qed.

Lemma string_of_uint_plain (d : Decimal.uint) :
  escapable (NilEmpty.string_of_uint d) = false.
Proof. induction d; cbn [NilEmpty.string_of_uint escapable]; auto. Qed.

(** The date text of the rewriter holds no control character, whatever the
    year. *)
Lemma valid_through_plain (current_year : Z) :
  escapable (valid_through current_year) = false.
Proof.
  unfold valid_through, Py.str_of_int. rewrite escapable_app.
  cbn [orb]. change (escapable "31 December ") with false. cbn [orb].
  unfold NilZero.string_of_int, NilZero.string_of_uint.
  destruct (Z.to_int current_year) as [d|d]; destruct d;
    try reflexivity; cbn [escapable]; try apply string_of_uint_plain;
    rewrite ?orb_false_l;
    try (cbn [NilEmpty.string_of_uint escapable]; apply string_of_uint_plain).
Qed.

(** X16.  [shape.text] is read when the loops reach the run.  If the text
    read then contains "Valid through", and the run, with its placeholders
    replaced, holds a date of the form "31 December" and four digits, the
    run is assigned its text with every such date replaced by "31 December"
    and the year of the clock, and that date text stands in the run. *)
Theorem X16_date_written (company_name tier : string) (current_year : Z)
    (ps : list paragraph) (i j : nat) (p : paragraph) (t : string) :
  ps !! i = Some p ->
  p !! j = Some (Run t) ->
  let date := "31 December " +:+ Py.str_of_int current_year in
  let out := paragraph_loop company_name tier date [] ps in
  let t2 := replace_placeholders company_name tier t in
  Py.re_search date_pattern t2 = true ->
  Py.str_in "Valid through" (text_frame_text (shape_at_visit ps out i j t2))
  = true ->
  exists q t',
    out !! i = Some q /\ q !! j = Some (Run t')
    /\ t' = assigned_text (Py.re_sub date_pattern date t2)
    /\ Py.str_in date t' = true.
Proof.
  intros Hi Hj date out t2 Hdate Hshape.
  destruct (modify_shape_visit company_name tier date ps i j p t Hi Hj)
    as (q & Hq & Hrun).
  exists q, (assigned_text (Py.re_sub date_pattern date t2)).
  split; [exact Hq|]. split; [|split; [reflexivity|]].
  - rewrite Hrun. unfold rewrite_run. fold t2. fold out.
    now rewrite Hshape, (re_search_date_str_in _ Hdate).
  - apply str_in_assigned_text; [apply valid_through_plain|].
    now apply re_sub_writes.
Qed.

Lemma X16_witness :
  exists q t',
    paragraph_loop "Acme" "Gold" ("31 December " +:+ Py.str_of_int 2025) []
      [[Run "Valid through "; Run "31 December 2019"]] !! 0%nat = Some q
    /\ q !! 1%nat = Some (Run t')
    /\ t' = assigned_text
              (Py.re_sub date_pattern ("31 December " +:+ Py.str_of_int 2025)
                 (replace_placeholders "Acme" "Gold" "31 December 2019"))
    /\ Py.str_in ("31 December " +:+ Py.str_of_int 2025) t' = true.
Proof.
  apply (X16_date_written "Acme" "Gold" 2025
           [[Run "Valid through "; Run "31 December 2019"]] 0 1
           [Run "Valid through "; Run "31 December 2019"]
           "31 December 2019"); reflexivity.
Defined.

(** ** The uploader, [upload_file_to_salesforce] *)

Section Uploader.

Variables (E : env) (base_url access_token : string)
  (file_content : list Byte.byte) (title : string) (original : option string)
  (tr : list request) (r : response) (upload_result : json_object).

Local Abbreviation post :=
  (creation_request base_url access_token file_content title original).

Hypothesis created : http E post = Ok r.
Hypothesis created_status : raise_for_status r = Ok tt.
Hypothesis created_json : json r = Ok upload_result.

(** The uploader after an answered creation request. *)
Lemma upload_after_creation :
  Upload.upload_file_to_salesforce E base_url access_token file_content title
    original tr
  = match get_success upload_result with
    | Some true =>
        match get_id upload_result with
        | None => (Raise (KeyError "id"), tr ++ [post])
        | Some content_version_id =>
            let followup :=
              followup_request base_url access_token content_version_id in
            match http E followup with
            | Raise e => (Raise e, (tr ++ [post]) ++ [followup])
            | Ok q =>
                match raise_for_status q with
                | Raise e => (Raise e, (tr ++ [post]) ++ [followup])
                | Ok _ =>
                    match json q with
                    | Raise e => (Raise e, (tr ++ [post]) ++ [followup])
                    | Ok query_data =>
                        match get_records query_data with
                        | Some (record :: _) =>
                            match record !! "ContentDocumentId" with
                            | Some d =>
                                (Ok (Upload.UploadDetails true
                                       content_version_id (Some d) title
                                       "File uploaded successfully to Salesforce"),
                                 (tr ++ [post]) ++ [followup])
                            | None =>
                                (Raise (KeyError "ContentDocumentId"),
                                 (tr ++ [post]) ++ [followup])
                            end
                        | _ =>
                            (Ok (Upload.UploadDetails true
                                   content_version_id None title
                                   "File uploaded successfully to Salesforce"),
                             (tr ++ [post]) ++ [followup])
                        end
                    end
                end
            end
        end
    | _ =>
        (Raise (ValueError ("Upload failed: " +:+ dict_repr upload_result)),
         tr ++ [post])
    end.
Proof.
  unfold Upload.upload_file_to_salesforce, try_except, requests_post,
    requests_get. cbv zeta.
  unfold bind at 1, send at 1.
  change (Request POST _ _ _ _ _ _) with post. rewrite created.
  unfold bind at 1, lift at 1. rewrite created_status.
  unfold bind at 1, lift at 1. rewrite created_json.
  destruct (get_success upload_result) as [[|]|]; try reflexivity.
  destruct (get_id upload_result) as [content_version_id|]; [|reflexivity].
  unfold bind at 1, send at 1.
  change (Request GET _ _ _ _ _ _)
    with (followup_request base_url access_token content_version_id).
  destruct (http E (followup_request base_url access_token content_version_id))
    as [q|e]; [|reflexivity].
  unfold bind at 1, lift at 1.
  destruct (raise_for_status q) as [[]|e]; [|reflexivity].
  unfold bind at 1, lift at 1.
  destruct (json q) as [query_data|e]; [|reflexivity].
  unfold bind at 1.
  destruct (get_records query_data) as [[|record records]|]; try reflexivity.
  destruct (record !! "ContentDocumentId"); reflexivity.
Qed.

End Uploader.

(** X17.  When the creation is answered with [success] and an [id], and
    the lookup after it is answered with at least one record that has a
    [ContentDocumentId], the uploader returns the details of the upload:
    the new version identifier, the container identifier of the first
    record, and the title; it has sent the creation and the lookup, in this
    order. *)
Theorem X17_upload_details (E : env) (base_url access_token : string)
    (file_content : list Byte.byte) (title : string) (tr : list request)
    (r q : response) (upload_result query_data : json_object)
    (content_version_id content_document_id : string)
    (record : gmap string string) (records : list (gmap string string)) :
  http E (creation_request base_url access_token file_content title None)
  = Ok r ->
  raise_for_status r = Ok tt ->
  json r = Ok upload_result ->
  get_success upload_result = Some true ->
  get_id upload_result = Some content_version_id ->
  http E (followup_request base_url access_token content_version_id) = Ok q ->
  raise_for_status q = Ok tt ->
  json q = Ok query_data ->
  get_records query_data = Some (record :: records) ->
  record !! "ContentDocumentId" = Some content_document_id ->
  Upload.upload_file_to_salesforce E base_url access_token file_content title
    None tr
  = (Ok (Upload.UploadDetails true content_version_id
           (Some content_document_id) title
           "File uploaded successfully to Salesforce"),
     tr ++ [creation_request base_url access_token file_content title None;
            followup_request base_url access_token content_version_id]).
Proof.
  intros Hr Hrs Hrj Hsuccess Hid Hq Hqs Hqj Hrecords Hdoc.
  rewrite (upload_after_creation E base_url access_token file_content title
             None tr r upload_result Hr Hrs Hrj).
  rewrite Hsuccess, Hid. cbv zeta.
  rewrite Hq, Hqs, Hqj, Hrecords, Hdoc, <- app_assoc. reflexivity.
Qed.

Lemma X17_witness :
  Upload.upload_file_to_salesforce sample_env
    "https://example.my.salesforce.com" "TOKEN" sample_document "Certificate"
    None []
  = (Ok (Upload.UploadDetails true "068VERSION0000003"
           (Some "069DOCUMENT000002") "Certificate"
           "File uploaded successfully to Salesforce"),
     [] ++ [creation_request "https://example.my.salesforce.com" "TOKEN"
              sample_document "Certificate" None;
            followup_request "https://example.my.salesforce.com" "TOKEN"
              "068VERSION0000003"]).
Proof.
  apply (X17_upload_details sample_env "https://example.my.salesforce.com"
           "TOKEN" sample_document "Certificate" []
           (reply 200 "OK" sample_json) (reply 200 "OK" sample_json)
           sample_json sample_json "068VERSION0000003" "069DOCUMENT000002"
           {[ "Id" := "068VERSION0000001";
              "ContentDocumentId" := "069DOCUMENT000002" ]} []);
    reflexivity.
Defined.

(** X18.  When the lookup after a successful creation finds no record (an
    empty list, or no [records] entry), the uploader still reports success:
    the details carry the new version identifier and no container
    identifier. *)
Theorem X18_upload_without_parent (E : env) (base_url access_token : string)
    (file_content : list Byte.byte) (title : string) (tr : list request)
    (r q : response) (upload_result query_data : json_object)
    (content_version_id : string) :
  http E (creation_request base_url access_token file_content title None)
  = Ok r ->
  raise_for_status r = Ok tt ->
  json r = Ok upload_result ->
  get_success upload_result = Some true ->
  get_id upload_result = Some content_version_id ->
  http E (followup_request base_url access_token content_version_id) = Ok q ->
  raise_for_status q = Ok tt ->
  json q = Ok query_data ->
  get_records query_data = Some [] \/ get_records query_data = None ->
  Upload.upload_file_to_salesforce E base_url access_token file_content title
    None tr
  = (Ok (Upload.UploadDetails true content_version_id None title
           "File uploaded successfully to Salesforce"),
     tr ++ [creation_request base_url access_token file_content title None;
            followup_request base_url access_token content_version_id]).
Proof.
  intros Hr Hrs Hrj Hsuccess Hid Hq Hqs Hqj Hrecords.
  rewrite (upload_after_creation E base_url access_token file_content title
             None tr r upload_result Hr Hrs Hrj).
  rewrite Hsuccess, Hid. cbv zeta.
  rewrite Hq, Hqs, Hqj, <- app_assoc.
  now destruct Hrecords as [-> | ->].
Qed.

Lemma X18_witness :
  Upload.upload_file_to_salesforce no_parent_env
    "https://example.my.salesforce.com" "TOKEN" sample_document "Certificate"
    None []
  = (Ok (Upload.UploadDetails true "068VERSION0000003" None "Certificate"
           "File uploaded successfully to Salesforce"),
     [] ++ [creation_request "https://example.my.salesforce.com" "TOKEN"
              sample_document "Certificate" None;
            followup_request "https://example.my.salesforce.com" "TOKEN"
              "068VERSION0000003"]).
Proof.
  apply (X18_upload_without_parent no_parent_env
           "https://example.my.salesforce.com" "TOKEN" sample_document
           "Certificate" []
           (reply 201 "Created" sample_json)
           (reply 200 "OK" (JsonObject (Some []) None None "{'records': []}"))
           sample_json (JsonObject (Some []) None None "{'records': []}")
           "068VERSION0000003");
    try reflexivity.
  left. reflexivity.
Defined.

(** X19.  When the answer to the creation does not say [success] (the entry
    is false or missing), the uploader raises [ValueError] with the text
    "Upload failed: " and the answer, and sends no lookup after the
    creation. *)
Theorem X19_upload_refused (E : env) (base_url access_token : string)
    (file_content : list Byte.byte) (title : string) (tr : list request)
    (r : response) (upload_result : json_object) :
  http E (creation_request base_url access_token file_content title None)
  = Ok r ->
  raise_for_status r = Ok tt ->
  json r = Ok upload_result ->
  get_success upload_result <> Some true ->
  Upload.upload_file_to_salesforce E base_url access_token file_content title
    None tr
  = (Raise (ValueError ("Upload failed: " +:+ dict_repr upload_result)),
     tr ++ [creation_request base_url access_token file_content title None]).
Proof.
  intros Hr Hrs Hrj Hsuccess.
  rewrite (upload_after_creation E base_url access_token file_content title
             None tr r upload_result Hr Hrs Hrj).
  destruct (get_success upload_result) as [[|]|]; congruence.
Qed.

Lemma X19_witness :
  Upload.upload_file_to_salesforce bare_answer_env
    "https://example.my.salesforce.com" "TOKEN" sample_document "Certificate"
    None []
  = (Raise (ValueError ("Upload failed: "
                        +:+ dict_repr (JsonObject None None None "{}"))),
     [] ++ [creation_request "https://example.my.salesforce.com" "TOKEN"
              sample_document "Certificate" None]).
Proof.
  apply (X19_upload_refused bare_answer_env
           "https://example.my.salesforce.com" "TOKEN" sample_document
           "Certificate" [] (reply 200 "OK" (JsonObject None None None "{}"))
           (JsonObject None None None "{}"));
    try reflexivity.
  discriminate.
Defined.

(** X20.  When the creation succeeded and the lookup after it is not
    answered (a timeout, a lost connection), the uploader raises the error
    of the lookup: the upload is reported as failed although the file was
    created, and nothing is sent after the lookup to undo the creation. *)
Theorem X20_failed_followup_after_creation (E : env)
    (base_url access_token : string) (file_content : list Byte.byte)
    (title : string) (tr : list request) (r : response)
    (upload_result : json_object) (content_version_id : string) (e : exn) :
  http E (creation_request base_url access_token file_content title None)
  = Ok r ->
  raise_for_status r = Ok tt ->
  json r = Ok upload_result ->
  get_success upload_result = Some true ->
  get_id upload_result = Some content_version_id ->
  http E (followup_request base_url access_token content_version_id)
  = Raise e ->
  Upload.upload_file_to_salesforce E base_url access_token file_content title
    None tr
  = (Raise e,
     tr ++ [creation_request base_url access_token file_content title None;
            followup_request base_url access_token content_version_id]).
Proof.
  intros Hr Hrs Hrj Hsuccess Hid Hq.
  rewrite (upload_after_creation E base_url access_token file_content title
             None tr r upload_result Hr Hrs Hrj).
  rewrite Hsuccess, Hid. cbv zeta. rewrite Hq, <- app_assoc. reflexivity.
Qed.

Lemma X20_witness :
  Upload.upload_file_to_salesforce followup_timeout_env
    "https://example.my.salesforce.com" "TOKEN" sample_document "Certificate"
    None []
  = (Raise (Timeout "Read timed out. (read timeout=60)"),
     [] ++ [creation_request "https://example.my.salesforce.com" "TOKEN"
              sample_document "Certificate" None;
            followup_request "https://example.my.salesforce.com" "TOKEN"
              "068VERSION0000003"]).
Proof.
  apply (X20_failed_followup_after_creation followup_timeout_env
           "https://example.my.salesforce.com" "TOKEN" sample_document
           "Certificate" [] (reply 201 "Created" sample_json) sample_json
           "068VERSION0000003");
    reflexivity.
Defined.

(** X21.  The optional container identifier of the uploader: given and not
    empty, it is put into the body under [ContentDocumentId] and the other
    entries stay as they are; given as the empty text, it is left out as if
    it were not given. *)
Theorem X21_payload_with_container (encoded_file title d : string) :
  d <> EmptyString ->
  Upload.upload_payload encoded_file title (Some d) !! "ContentDocumentId"
  = Some (JStr d)
  /\ delete "ContentDocumentId"
       (Upload.upload_payload encoded_file title (Some d))
     = Upload.upload_payload encoded_file title None
  /\ Upload.upload_payload encoded_file title (Some EmptyString)
     = Upload.upload_payload encoded_file title None
  /\ Upload.upload_payload encoded_file title None !! "ContentDocumentId"
     = None.
Proof.
  intros Hd. unfold Upload.upload_payload. cbv zeta.
  apply String.eqb_neq in Hd. rewrite Hd.
  assert (Hnone :
    ({[ "Title" := JStr title;
        "PathOnClient" := JStr (title +:+ ".pptx");
        "VersionData" := JStr encoded_file;
        "IsMajorVersion" := JBool true ]} : gmap string jvalue)
    !! "ContentDocumentId" = None) by reflexivity.
  split; [apply lookup_insert_eq|].
  split; [now apply delete_insert_id|].
  split; [reflexivity | exact Hnone].
Qed.

Lemma X21_witness :
  Upload.upload_payload "UEs=" "Certificate" (Some "069DOCUMENT000002")
    !! "ContentDocumentId"
  = Some (JStr "069DOCUMENT000002")
  /\ delete "ContentDocumentId"
       (Upload.upload_payload "UEs=" "Certificate" (Some "069DOCUMENT000002"))
     = Upload.upload_payload "UEs=" "Certificate" None
  /\ Upload.upload_payload "UEs=" "Certificate" (Some EmptyString)
     = Upload.upload_payload "UEs=" "Certificate" None
  /\ Upload.upload_payload "UEs=" "Certificate" None !! "ContentDocumentId"
     = None.
Proof.
  apply (X21_payload_with_container "UEs=" "Certificate" "069DOCUMENT000002").
  discriminate.
Defined.

(** ** The generated title *)

Lemma length_string_map (f : ascii -> ascii) (s : string) :
  String.length (string_map f s) = String.length s.
Proof. induction s as [|c s IH]; [reflexivity | cbn; now rewrite IH]. Qed.

Lemma safe_char_idem (x : ascii) : safe_char (safe_char x) = safe_char x.
Proof.
  unfold safe_char at 2 3.
  destruct (Ascii.eqb x " " || Ascii.eqb x "/") eqn:Hx; [reflexivity|].
  unfold safe_char. now rewrite Hx.
Qed.

Lemma char_in_string_map_safe (c : ascii) (s : string) :
  safe_char c <> c -> char_in c (string_map safe_char s) = false.
Proof.
  intros Hc. induction s as [|x s IH]; [reflexivity|].
  cbn [string_map char_in]. rewrite IH, orb_false_r.
  apply Ascii.eqb_neq. intros ->.
  apply Hc. apply safe_char_idem.
Qed.

Lemma char_in_app (c : ascii) (a b : string) :
  char_in c (a +:+ b) = char_in c a || char_in c b.
Proof.
  induction a as [|x a IH]; [reflexivity|].
  rewrite append_cons. cbn [char_in]. now rewrite IH, orb_assoc.
Qed.

(** X22.  For the default title the handler generates
    "Partner_Plus_Certificate_", the tier, "_" and the company name made
    safe.  The safe company name is as long as the company name and holds
    no space and no slash; the tier is put in as it is, so a character of
    the tier, a space or a slash too, is a character of the title. *)
Theorem X22_generated_title (company_name tier : string) :
  Upload.dynamic_title "Partner_Plus_Certificate" company_name tier
  = "Partner_Plus_Certificate_" +:+ tier +:+ "_"
    +:+ string_map safe_char company_name
  /\ String.length (string_map safe_char company_name)
     = String.length company_name
  /\ char_in " " (string_map safe_char company_name) = false
  /\ char_in "/" (string_map safe_char company_name) = false
  /\ forall c,
       char_in c tier = true ->
       char_in c (Upload.dynamic_title "Partner_Plus_Certificate"
                    company_name tier) = true.
Proof.
  assert (Htitle :
    Upload.dynamic_title "Partner_Plus_Certificate" company_name tier
    = "Partner_Plus_Certificate_" +:+ tier +:+ "_"
      +:+ string_map safe_char company_name).
  { unfold Upload.dynamic_title, Upload.default_title.
    now rewrite safe_company_map. }
  split; [exact Htitle|].
  split; [apply length_string_map|].
  split; [now apply char_in_string_map_safe|].
  split; [now apply char_in_string_map_safe|].
  intros c Hc. rewrite Htitle, !char_in_app, Hc.
  now rewrite orb_true_r.
Qed.

(** ** Surrounding whitespace in a request *)

Lemma rstrip_with_idem (drop : ascii -> bool) (s : string) :
  Py.rstrip_with drop (Py.rstrip_with drop s) = Py.rstrip_with drop s.
Proof.
  induction s as [|c s IH]; [reflexivity|].
  cbn [Py.rstrip_with].
  destruct (Py.rstrip_with drop s) as [|x r] eqn:Hr.
  - destruct (drop c) eqn:Hc; [reflexivity|].
    cbn [Py.rstrip_with]. now rewrite Hc.
  - cbn [Py.rstrip_with] in *. now rewrite IH.
Qed.

Lemma rstrip_with_tail (drop : ascii -> bool) (c : ascii) (s : string) :
  Py.rstrip_with drop (String c s) = String c s ->
  Py.rstrip_with drop s = s.
Proof.
  cbn [Py.rstrip_with].
  destruct (Py.rstrip_with drop s) as [|x r].
  - destruct (drop c); [discriminate|]. intros H. now injection H as <-.
  - intros H. now injection H as <-.
Qed.

Lemma rstrip_with_lstrip_with (drop : ascii -> bool) (s : string) :
  Py.rstrip_with drop s = s ->
  Py.rstrip_with drop (Py.lstrip_with drop s) = Py.lstrip_with drop s.
Proof.
  induction s as [|c s IH]; [reflexivity|]. intros H.
  cbn [Py.lstrip_with]. destruct (drop c); [|exact H].
  apply IH. now apply rstrip_with_tail in H.
Qed.

Lemma lstrip_with_idem (drop : ascii -> bool) (s : string) :
  Py.lstrip_with drop (Py.lstrip_with drop s) = Py.lstrip_with drop s.
Proof.
  induction s as [|c s IH]; [reflexivity|].
  cbn [Py.lstrip_with]. destruct (drop c) eqn:Hc; [exact IH|].
  cbn [Py.lstrip_with]. now rewrite Hc.
Qed.

Lemma strip_idem (s : string) : Py.strip (Py.strip s) = Py.strip s.
Proof.
  unfold Py.strip.
  rewrite (rstrip_with_lstrip_with _ _ (rstrip_with_idem _ s)).
  apply lstrip_with_idem.
Qed.

(** X23.  Whitespace around the fields of a request does not matter: each
    handler returns the same bytes and sends the same requests for a
    request and for the request with its identifier, company name, tier and
    title trimmed. *)
Theorem X23_surrounding_whitespace_ignored (E : env) (tr : list request)
    (file_id company_name tier title : string) (upload_back : bool) :
  Simple.salesforce_download_file E (Simple.Input (Py.strip file_id)) tr
  = Simple.salesforce_download_file E (Simple.Input file_id) tr
  /\ Replace.salesforce_download_file E
       (Replace.Input (Py.strip file_id) (Py.strip company_name)
          (Py.strip tier)) tr
     = Replace.salesforce_download_file E
         (Replace.Input file_id company_name tier) tr
  /\ Upload.salesforce_download_file E
       (Upload.Input (Py.strip file_id) (Py.strip company_name)
          (Py.strip tier) upload_back (Py.strip title)) tr
     = Upload.salesforce_download_file E
         (Upload.Input file_id company_name tier upload_back title) tr.
Proof.
  unfold Simple.salesforce_download_file, Simple.try_block,
    Replace.salesforce_download_file, Replace.try_block,
    Upload.salesforce_download_file, Upload.try_block.
  cbn [Simple.file_id Replace.file_id Replace.company_name Replace.tier
       Upload.file_id Upload.company_name Upload.tier Upload.title
       Upload.upload_back_to_salesforce].
  rewrite !strip_idem. repeat split.
Qed.

(** ** Runs that no rewrite can reach *)

(** X24.  A run that holds neither placeholder token and not the text
    "31 December" comes out as it went in, whatever the other runs of its
    shape hold and whatever the substitution values are. *)
Theorem X24_plain_run_untouched
    (company_name tier valid_through_date : string) (ps : list paragraph)
    (i j : nat) (p : paragraph) (t : string) :
  ps !! i = Some p ->
  p !! j = Some (Run t) ->
  Py.str_in "<Company>" t = false ->
  Py.str_in "<Tier>" t = false ->
  Py.str_in "31 December" t = false ->
  exists q,
    paragraph_loop company_name tier valid_through_date [] ps !! i = Some q
    /\ q !! j = Some (Run t).
Proof.
  intros Hi Hj Hc Ht Hd.
  destruct (modify_shape_visit company_name tier valid_through_date
              ps i j p t Hi Hj) as (q & Hq & Hrun).
  exists q. split; [exact Hq|]. rewrite Hrun.
  unfold rewrite_run, replace_placeholders. now rewrite Hc, Ht, Hd.
Qed.

Lemma X24_witness :
  exists q,
    paragraph_loop "Valid through" "Gold" (valid_through 2025) []
      [[Run "<Company> 31 December 2019"; LineBreak; Run "Partner Plus"]]
      !! 0%nat = Some q
    /\ q !! 2%nat = Some (Run "Partner Plus").
Proof.
  apply (X24_plain_run_untouched "Valid through" "Gold" (valid_through 2025)
           [[Run "<Company> 31 December 2019"; LineBreak; Run "Partner Plus"]]
           0 2 [Run "<Company> 31 December 2019"; LineBreak; Run "Partner Plus"]
           "Partner Plus"); reflexivity.
Defined.

(** ** The rewriting handler from end to end *)

(** X25.  For an identifier with the prefix 068, when the credentials are
    there, the download is answered with a status outside 400 to 599 and a
    body, the body parses and the rewritten document serializes, the
    rewriting handler returns that serialization: the parsed document
    rewritten with the trimmed company name, the trimmed tier and
    "31 December" with the year of the clock at the call.  It has sent the
    download request and nothing else. *)
Theorem X25_rewriting_handler_succeeds (E : env)
    (file_id company_name tier : string) (creds : credentials)
    (tr : list request) (r : response) (body document : list Byte.byte)
    (prs : presentation) :
  Py.startswith (Py.strip file_id) "068" = true ->
  oauth2_auth_code E SALESFORCE_APP_ID = Ok creds ->
  http E (download_request
            (version_data_url (Py.rstrip (url creds) "/") (Py.strip file_id))
            (auth_headers creds)) = Ok r ->
  ~ (400 <= status_code r < 600) ->
  content r = Ok body ->
  Presentation E body = Ok prs ->
  save E (modify_slides (Py.strip company_name) (Py.strip tier)
            ("31 December " +:+ Py.str_of_int (now_year E)) prs)
  = Ok document ->
  Replace.salesforce_download_file E
    (Replace.Input file_id company_name tier) tr
  = (Ok document,
     tr ++ [download_request
              (version_data_url (Py.rstrip (url creds) "/") (Py.strip file_id))
              (auth_headers creds)]).
Proof.
  intros H068 Hcreds Hhttp Hstatus Hbody Hparse Hsave.
  destruct (startswith_3 _ _ _ _ H068) as (rest & Hid).
  unfold Replace.salesforce_download_file, Replace.try_block, try_except.
  cbn [Replace.file_id Replace.company_name Replace.tier]. cbv zeta.
  replace (String.eqb (Py.strip file_id) EmptyString) with false
    by now rewrite Hid.
  unfold bind at 1, lift at 1. rewrite Hcreds.
  unfold bind at 1.
  replace (resolve E (Py.rstrip (url creds) "/") (auth_headers creds)
             (Py.strip file_id) tr)
    with (@Ok (string * option string)
            (version_data_url (Py.rstrip (url creds) "/") (Py.strip file_id),
             None), tr)
    by (rewrite Hid; reflexivity).
  cbn [fst]. unfold bind at 1.
  rewrite (retrieve_body E _ _ tr r body Hhttp Hstatus Hbody).
  unfold bind at 1, modify_pptx_template, try_except.
  unfold bind at 1, lift at 1. rewrite Hparse. cbv zeta.
  unfold valid_through, lift. now rewrite Hsave.
Qed.

Lemma X25_witness :
  Replace.salesforce_download_file sample_env
    (Replace.Input " 068abc" " Acme Corporation " "Gold") []
  = (Ok sample_document,
     [] ++ [download_request
              (version_data_url (Py.rstrip (url sample_credentials) "/")
                 (Py.strip " 068abc"))
              (auth_headers sample_credentials)]).
Proof.
  apply (X25_rewriting_handler_succeeds sample_env " 068abc"
           " Acme Corporation " "Gold" sample_credentials []
           (reply 200 "OK" sample_json) (Py.encode_utf8 "PK") sample_document
           sample_presentation);
    [reflexivity | reflexivity | reflexivity | simpl; lia
    | reflexivity | reflexivity | reflexivity].
Defined.

(** ** Failures before and after the document is there *)

(** X26.  When the call for the credentials raises an exception [e] (an
    [Exception]: in the fallback of the source, where [connections] is not
    defined, the [NameError] of that name), a handler that was given an
    identifier that is not blank returns its prefix and [str(e)] as bytes
    and has sent no request. *)
Theorem X26_no_credentials_no_request (E : env) (tr : list request)
    (file_id company_name tier title : string) (upload_back : bool)
    (e : exn) :
  Py.strip file_id <> EmptyString ->
  oauth2_auth_code E SALESFORCE_APP_ID = Raise e ->
  Simple.salesforce_download_file E (Simple.Input file_id) tr
  = (Ok (Py.encode_utf8
           ("Error downloading file from Salesforce: " +:+ str_exn e)), tr)
  /\ Replace.salesforce_download_file E
       (Replace.Input file_id company_name tier) tr
     = (Ok (Py.encode_utf8
              ("Error processing file from Salesforce: " +:+ str_exn e)), tr)
  /\ Upload.salesforce_download_file E
       (Upload.Input file_id company_name tier upload_back title) tr
     = (Ok (Py.encode_utf8
              ("Error processing file from Salesforce: " +:+ str_exn e)), tr).
Proof.
  intros Hid Hcreds. apply String.eqb_neq in Hid.
  unfold Simple.salesforce_download_file, Simple.try_block,
    Replace.salesforce_download_file, Replace.try_block,
    Upload.salesforce_download_file, Upload.try_block, try_except.
  cbn [Simple.file_id Replace.file_id Upload.file_id]. cbv zeta.
  rewrite Hid. unfold bind at 1 3 5, lift. rewrite Hcreds.
  split; [reflexivity|]. split; reflexivity.
Qed.

Lemma X26_witness :
  Simple.salesforce_download_file no_credentials_env (Simple.Input "068abc") []
  = (Ok (Py.encode_utf8
           ("Error downloading file from Salesforce: "
            +:+ str_exn (OtherException "name 'connections' is not defined"))),
     [])
  /\ Replace.salesforce_download_file no_credentials_env
       (Replace.Input "068abc" "Acme" "Gold") []
     = (Ok (Py.encode_utf8
              ("Error processing file from Salesforce: "
               +:+ str_exn (OtherException "name 'connections' is not defined"))),
        [])
  /\ Upload.salesforce_download_file no_credentials_env
       (Upload.Input "068abc" "Acme" "Gold" true "Certificate") []
     = (Ok (Py.encode_utf8
              ("Error processing file from Salesforce: "
               +:+ str_exn (OtherException "name 'connections' is not defined"))),
        []).
Proof.
  apply (X26_no_credentials_no_request no_credentials_env [] "068abc" "Acme"
           "Gold" "Certificate" true
           (OtherException "name 'connections' is not defined"));
    [discriminate | reflexivity].
Defined.

(** X27.  A failed upload costs the caller the document: when the
    rewriting handler would return a document, upload is switched on and the
    uploader raises, the uploading handler returns the text of that error
    and not the document. *)
Theorem X27_failed_upload_loses_document (E : env)
    (file_id company_name tier title : string) (creds : credentials)
    (tr tr1 tr2 : list request) (document : list Byte.byte) (e : exn) :
  oauth2_auth_code E SALESFORCE_APP_ID = Ok creds ->
  Replace.try_block E (Replace.Input file_id company_name tier) tr
  = (Ok document, tr1) ->
  Upload.upload_file_to_salesforce E (Py.rstrip (url creds) "/")
    (access_token creds) document
    (Upload.dynamic_title (Py.strip title) (Py.strip company_name)
       (Py.strip tier)) None tr1
  = (Raise e, tr2) ->
  Upload.salesforce_download_file E
    (Upload.Input file_id company_name tier true title) tr
  = (Ok (Py.encode_utf8
           ("Error processing file from Salesforce: " +:+ str_exn e)), tr2).
Proof.
  intros Hcreds Hreplace Hupload.
  unfold Upload.salesforce_download_file, Upload.try_block, try_except.
  revert Hreplace. unfold Replace.try_block.
  cbn [Upload.file_id Upload.company_name Upload.tier Upload.title
       Upload.upload_back_to_salesforce
       Replace.file_id Replace.company_name Replace.tier].
  cbv zeta.
  destruct (String.eqb _ _); [discriminate|]. intros Hrun.
  apply bind_ok in Hrun as (creds' & tr3 & Hcreds' & Hrun).
  assert (creds' = creds) as ->.
  { unfold lift in Hcreds'. congruence. }
  apply bind_ok in Hrun as (resolved & tr4 & Hresolve & Hrun).
  apply bind_ok in Hrun as (file_content & tr5 & Hretrieve & Hrun).
  apply bind_ok in Hrun as (content & tr6 & Hmodify & Hrun).
  injection Hrun as -> ->.
  unfold bind at 1. rewrite Hcreds'.
  unfold bind at 1. rewrite Hresolve.
  unfold bind at 1. rewrite Hretrieve.
  unfold bind at 1. rewrite Hmodify.
  unfold bind at 1 2. now rewrite Hupload.
Qed.

Lemma X27_witness :
  Upload.salesforce_download_file upload_down_env
    (Upload.Input "068abc" "Acme Corporation" "Gold" true "Certificate") []
  = (Ok (Py.encode_utf8
           ("Error processing file from Salesforce: "
            +:+ str_exn
                  (HTTPError
                     "500 Server Error: Server Error for url: https://example.my.salesforce.com/x"
                     500))),
     [download_request
        (version_data_url "https://example.my.salesforce.com" "068abc")
        (auth_headers sample_credentials);
      creation_request "https://example.my.salesforce.com" "TOKEN"
        sample_document "Certificate" None]).
Proof.
  apply (X27_failed_upload_loses_document upload_down_env "068abc"
           "Acme Corporation" "Gold" "Certificate" sample_credentials []
           [download_request
              (version_data_url "https://example.my.salesforce.com" "068abc")
              (auth_headers sample_credentials)]
           _ sample_document);
    vm_compute; reflexivity.
Defined.
